(** * SQL chatbot: validator, fallback generator, executor and orchestrator

    A shallow embedding of [src/app.py] (class [SecureLocalChatbot] and the
    [/chat] route) together with the properties its specification states.

    Scope of the model.  Python strings are modelled by [string]; the
    embedding covers text whose code points are below 128, where
    [str.upper], [str.lower], [str.strip] and the [re] classes act as
    written here.  Bytes from 128 on are carried along as uninterpreted,
    caseless, non-blank characters. *)

From Stdlib Require Import String Ascii List Bool Arith ZArith Lia DecimalString.
Import ListNotations.
Local Open Scope string_scope.
Local Open Scope bool_scope.

(* ===================================================================== *)
(** * Python string primitives *)
(* ===================================================================== *)

Module PyStr.

Definition TAB : ascii := "009"%char.
Definition NL : ascii := "010"%char.
Definition DQUOTE : ascii := "034"%char.

(** [str.isspace] on one character: 0x09-0x0D, 0x1C-0x1F and 0x20. *)
Definition isspace (c : ascii) : bool :=
  let n := nat_of_ascii c in
  ((9 <=? n)%nat && (n <=? 13)%nat) || ((28 <=? n)%nat && (n <=? 32)%nat).

Definition upper_char (c : ascii) : ascii :=
  let n := nat_of_ascii c in
  if (97 <=? n)%nat && (n <=? 122)%nat then ascii_of_nat (n - 32) else c.

Definition lower_char (c : ascii) : ascii :=
  let n := nat_of_ascii c in
  if (65 <=? n)%nat && (n <=? 90)%nat then ascii_of_nat (n + 32) else c.

Fixpoint map_chars (f : ascii -> ascii) (s : string) : string :=
  match s with
  | EmptyString => EmptyString
  | String c s' => String (f c) (map_chars f s')
  end.

(** [s.upper()] and [s.lower()]. *)
Definition upper : string -> string := map_chars upper_char.
Definition lower : string -> string := map_chars lower_char.

Fixpoint lstrip (s : string) : string :=
  match s with
  | EmptyString => EmptyString
  | String c s' => if isspace c then lstrip s' else s
  end.

Fixpoint rstrip (s : string) : string :=
  match s with
  | EmptyString => EmptyString
  | String c s' =>
      match rstrip s' with
      | EmptyString => if isspace c then EmptyString else String c EmptyString
      | r => String c r
      end
  end.

(** [s.strip()]. *)
Definition strip (s : string) : string := rstrip (lstrip s).

(** Truthiness of a [str]: [not s] holds exactly for the empty string. *)
Definition is_empty (s : string) : bool :=
  match s with EmptyString => true | _ => false end.

(** [s.startswith(p)]. *)
Fixpoint startswith (s p : string) : bool :=
  match p with
  | EmptyString => true
  | String c p' =>
      match s with
      | EmptyString => false
      | String d s' => Ascii.eqb c d && startswith s' p'
      end
  end.

(** [p in s]: [p] occurs in [s] as a contiguous substring. *)
Fixpoint contains (s p : string) : bool :=
  startswith s p ||
  match s with
  | EmptyString => false
  | String _ s' => contains s' p
  end.

(** Drop the first [n] characters: [s[n:]]. *)
Fixpoint drop (n : nat) (s : string) : string :=
  match n, s with
  | O, _ => s
  | S n', String _ s' => drop n' s'
  | S _, EmptyString => EmptyString
  end.

End PyStr.

(* ===================================================================== *)
(** * The fragment of [re] used by the validator *)
(* ===================================================================== *)

Module Re.

(** Regular expressions over characters.  [Dot] is [.] without DOTALL
    (anything but a newline); [Blank] is [\s]. *)
Inductive regex : Type :=
| Void : regex
| Eps : regex
| Lit : ascii -> regex
| Dot : regex
| Blank : regex
| Cat : regex -> regex -> regex
| Alt : regex -> regex -> regex
| Star : regex -> regex.

(** A literal word, character by character. *)
Fixpoint word (s : string) : regex :=
  match s with
  | EmptyString => Eps
  | String c s' => Cat (Lit c) (word s')
  end.

Fixpoint alts (rs : list regex) : regex :=
  match rs with
  | [] => Void
  | [r] => r
  | r :: rs' => Alt r (alts rs')
  end.

Fixpoint nullable (r : regex) : bool :=
  match r with
  | Void => false
  | Eps => true
  | Lit _ => false
  | Dot => false
  | Blank => false
  | Cat r1 r2 => nullable r1 && nullable r2
  | Alt r1 r2 => nullable r1 || nullable r2
  | Star _ => true
  end.

(** Brzozowski derivative of [r] by the character [c]. *)
Fixpoint deriv (c : ascii) (r : regex) : regex :=
  match r with
  | Void => Void
  | Eps => Void
  | Lit d => if Ascii.eqb c d then Eps else Void
  | Dot => if Ascii.eqb c PyStr.NL then Void else Eps
  | Blank => if PyStr.isspace c then Eps else Void
  | Cat r1 r2 =>
      if nullable r1
      then Alt (Cat (deriv c r1) r2) (deriv c r2)
      else Cat (deriv c r1) r2
  | Alt r1 r2 => Alt (deriv c r1) (deriv c r2)
  | Star r1 => Cat (deriv c r1) (Star r1)
  end.

(** Some prefix of [s] belongs to the language of [r] ([re.match]). *)
Fixpoint prefix_match (r : regex) (s : string) : bool :=
  nullable r ||
  match s with
  | EmptyString => false
  | String c s' => prefix_match (deriv c r) s'
  end.

(** [re.search(r, s)] is not [None]: a match starts at some position. *)
Fixpoint search (r : regex) (s : string) : bool :=
  prefix_match r s ||
  match s with
  | EmptyString => false
  | String _ s' => search r s'
  end.

(** Declarative semantics: the language of a regular expression. *)
Inductive Matches : regex -> string -> Prop :=
| MEps : Matches Eps EmptyString
| MLit c : Matches (Lit c) (String c EmptyString)
| MDot c : c <> PyStr.NL -> Matches Dot (String c EmptyString)
| MBlank c : PyStr.isspace c = true -> Matches Blank (String c EmptyString)
| MCat r1 r2 s1 s2 :
    Matches r1 s1 -> Matches r2 s2 -> Matches (Cat r1 r2) (s1 ++ s2)
| MAltL r1 r2 s : Matches r1 s -> Matches (Alt r1 r2) s
| MAltR r1 r2 s : Matches r2 s -> Matches (Alt r1 r2) s
| MStarNil r : Matches (Star r) EmptyString
| MStarApp r s1 s2 :
    Matches r s1 -> Matches (Star r) s2 -> Matches (Star r) (s1 ++ s2).

(** [r] matches some contiguous part of [s]. *)
Definition Found (r : regex) (s : string) : Prop :=
  exists pre m post, s = pre ++ m ++ post /\ Matches r m.

End Re.

(* ===================================================================== *)
(** * The validator: [SecureLocalChatbot.validate_sql_query] *)
(* ===================================================================== *)

Definition dangerous_keywords : list string :=
  [ "DROP"; "DELETE"; "INSERT"; "UPDATE"; "ALTER"; "CREATE"; "TRUNCATE";
    "EXEC"; "EXECUTE"; "REPLACE"; "MERGE"; "PRAGMA"; "ATTACH"; "DETACH" ].

(** The test of the keyword loop:
    [f' {keyword} ' in f' {query_upper} ' or
     query_upper.startswith(f'{keyword} ')]. *)
Definition keyword_hit (query_upper keyword : string) : bool :=
  PyStr.contains (" " ++ query_upper ++ " ") (" " ++ keyword ++ " ")
  || PyStr.startswith query_upper (keyword ++ " ").

Definition blanks : Re.regex := Re.Star Re.Blank.
Definition dots : Re.regex := Re.Star Re.Dot.

(** [1\s*=\s*1], the tail shared by the two tautology patterns. *)
Definition one_eq_one : Re.regex :=
  Re.Cat (Re.Lit "1") (Re.Cat blanks (Re.Cat (Re.Lit "=")
         (Re.Cat blanks (Re.Lit "1")))).

(** [;\s*(DROP|DELETE|INSERT|UPDATE)] *)
Definition pat_stacked : Re.regex :=
  Re.Cat (Re.Lit ";") (Re.Cat blanks
    (Re.alts [Re.word "DROP"; Re.word "DELETE"; Re.word "INSERT";
              Re.word "UPDATE"])).
(** [--] *)
Definition pat_line_comment : Re.regex := Re.word "--".
(** [/\*.*\*/] *)
Definition pat_block_comment : Re.regex :=
  Re.Cat (Re.word "/*") (Re.Cat dots (Re.word "*/")).
(** [UNION.*SELECT] *)
Definition pat_union : Re.regex :=
  Re.Cat (Re.word "UNION") (Re.Cat dots (Re.word "SELECT")).
(** [OR.*1\s*=\s*1] *)
Definition pat_or_true : Re.regex :=
  Re.Cat (Re.word "OR") (Re.Cat dots one_eq_one).
(** [AND.*1\s*=\s*1] *)
Definition pat_and_true : Re.regex :=
  Re.Cat (Re.word "AND") (Re.Cat dots one_eq_one).

Definition injection_patterns : list Re.regex :=
  [ pat_stacked; pat_line_comment; pat_block_comment; pat_union;
    pat_or_true; pat_and_true ].

Definition MSG_EMPTY : string := "Query cannot be empty".
Definition MSG_NOT_SELECT : string :=
  "Security: Only SELECT queries are allowed".
Definition MSG_FORBIDDEN (keyword : string) : string :=
  "Forbidden keyword detected: " ++ keyword.
Definition MSG_INJECTION : string := "Potential SQL injection detected".
Definition MSG_PASSED : string := "Query passed security validation".

Definition validate_sql_query (query : string) : bool * string :=
  if PyStr.is_empty query || PyStr.is_empty (PyStr.strip query) then
    (false, MSG_EMPTY)
  else
    let query_upper := PyStr.upper (PyStr.strip query) in
    if negb (PyStr.startswith query_upper "SELECT") then
      (false, MSG_NOT_SELECT)
    else
      match find (keyword_hit query_upper) dangerous_keywords with
      | Some keyword => (false, MSG_FORBIDDEN keyword)
      | None =>
          if existsb (fun pattern => Re.search pattern query_upper)
                     injection_patterns
          then (false, MSG_INJECTION)
          else (true, MSG_PASSED)
      end.

(* ===================================================================== *)
(** * Effects: the log and the record of component invocations *)
(* ===================================================================== *)

Inductive level : Type := INFO | WARNING | ERROR.

(** The stages a request can pass through. *)
Inductive component : Type :=
| SchemaIntrospector    (* get_database_schema / format_schema_for_ai *)
| CompletionAdapter     (* groq_client.chat.completions.create *)
| FallbackGenerator     (* generate_fallback_sql *)
| Validator             (* validate_sql_query *)
| QueryExecutor.        (* execute_query *)

(** What a run leaves behind: one [Call] per entry into a component, with
    its argument, and one [Log] per [logger] record. *)
Inductive event : Type :=
| Call : component -> string -> event
| Log : level -> string -> event.

Definition trace : Type := list event.

(** State passing over the trace. *)
Definition M (A : Type) : Type := trace -> A * trace.

Definition ret {A : Type} (a : A) : M A := fun t => (a, t).

Definition bind {A B : Type} (m : M A) (k : A -> M B) : M B :=
  fun t => let (a, t') := m t in k a t'.

Definition emit (e : event) : M unit := fun t => (tt, (t ++ [e])%list).

Definition enter (c : component) (arg : string) : M unit := emit (Call c arg).
Definition logger (l : level) (msg : string) : M unit := emit (Log l msg).

(** Run from an empty trace. *)
Definition run {A : Type} (m : M A) : A * trace := m [].

Declare Scope chat_scope.
Delimit Scope chat_scope with chat.
Notation "x <- m ;; k" := (bind m (fun x => k))
  (at level 100, m at next level, right associativity) : chat_scope.
Notation "m ;;; k" := (bind m (fun _ => k))
  (at level 100, right associativity) : chat_scope.
Local Open Scope chat_scope.

Definition component_eqb (a b : component) : bool :=
  match a, b with
  | SchemaIntrospector, SchemaIntrospector
  | CompletionAdapter, CompletionAdapter
  | FallbackGenerator, FallbackGenerator
  | Validator, Validator
  | QueryExecutor, QueryExecutor => true
  | _, _ => false
  end.

Definition is_call (c : component) (e : event) : bool :=
  match e with
  | Call c' _ => component_eqb c c'
  | Log _ _ => false
  end.

(** How many times component [c] was entered. *)
Definition calls (c : component) (t : trace) : nat :=
  List.length (filter (is_call c) t).

(** The arguments component [c] was entered with, in order. *)
Definition call_args (c : component) (t : trace) : list string :=
  flat_map (fun e => match e with
                     | Call c' a => if component_eqb c c' then [a] else []
                     | Log _ _ => []
                     end) t.

(* ===================================================================== *)
(** * The fallback generator: [SecureLocalChatbot.generate_fallback_sql] *)
(* ===================================================================== *)

(** [any(keyword in question_lower for keyword in keywords)] *)
Definition any_in (keywords : list string) (question_lower : string) : bool :=
  existsb (fun keyword => PyStr.contains question_lower keyword) keywords.

Definition SQL_CUSTOMERS_ACTIVE : string :=
  "SELECT * FROM customers WHERE status = 'active'".
Definition SQL_CUSTOMERS : string := "SELECT * FROM customers".
Definition SQL_CUSTOMER_COUNT : string :=
  "SELECT COUNT(*) as customer_count FROM customers".
Definition SQL_ORDERS : string :=
  "SELECT * FROM orders ORDER BY order_date DESC".
Definition SQL_ORDER_COUNT : string :=
  "SELECT COUNT(*) as order_count FROM orders".
Definition SQL_PRODUCTS_ELECTRONICS : string :=
  "SELECT * FROM products WHERE category = 'Electronics'".
Definition SQL_PRODUCTS : string := "SELECT * FROM products".
Definition SQL_EMPLOYEES : string :=
  "SELECT * FROM employees WHERE status = 'active'".
Definition SQL_REVENUE_ELECTRONICS : string :=
  "SELECT SUM(total_amount) as total_revenue FROM orders WHERE category = 'Electronics'".
Definition SQL_TOP_CUSTOMERS : string :=
  "SELECT c.name, c.email, SUM(o.total_amount) as total_spent FROM customers c JOIN orders o ON c.id = o.customer_id GROUP BY c.id, c.name, c.email ORDER BY total_spent DESC LIMIT 5".

(** The [if]/[elif] chain of the source; [None] is Python's [None]. *)
Definition fallback_chain (question_lower : string) : option string :=
  if any_in ["all customers"; "show customers"; "list customers"]
            question_lower then
    if PyStr.contains question_lower "active"
    then Some SQL_CUSTOMERS_ACTIVE
    else Some SQL_CUSTOMERS
  else if any_in ["count customers"; "how many customers"]
                 question_lower then
    Some SQL_CUSTOMER_COUNT
  else if any_in ["all orders"; "show orders"; "list orders"]
                 question_lower then
    Some SQL_ORDERS
  else if any_in ["count orders"; "how many orders"] question_lower then
    Some SQL_ORDER_COUNT
  else if any_in ["all products"; "show products"; "list products"]
                 question_lower then
    if PyStr.contains question_lower "electronics"
    then Some SQL_PRODUCTS_ELECTRONICS
    else Some SQL_PRODUCTS
  else if any_in ["all employees"; "show employees"; "list employees"]
                 question_lower then
    Some SQL_EMPLOYEES
  else if PyStr.contains question_lower "revenue"
          && PyStr.contains question_lower "electronics" then
    Some SQL_REVENUE_ELECTRONICS
  else if PyStr.contains question_lower "top"
          && PyStr.contains question_lower "customers" then
    Some SQL_TOP_CUSTOMERS
  else None.

Definition generate_fallback_sql (user_question : string)
  : M (option string) :=
  enter FallbackGenerator user_question ;;;
  let question_lower := PyStr.lower user_question in
  match fallback_chain question_lower with
  | Some sql => ret (Some sql)
  | None =>
      logger WARNING
        ("No fallback SQL pattern matched for: " ++ user_question) ;;;
      ret None
  end.

(** What the generator logs for a question: the warning of the default
    branch, when no trigger fires. *)
Definition warning_for (Q : string) : trace :=
  match fallback_chain (PyStr.lower Q) with
  | Some _ => []
  | None => [Log WARNING ("No fallback SQL pattern matched for: " ++ Q)]
  end.

(** ** The trigger table the specification describes

    An ordered table of triggers; each entry pairs the test on the
    lower-cased question with the statement it selects.  Evaluation takes
    the first entry whose test holds. *)

Record trigger : Type := {
  fires : string -> bool;
  statement : string -> string
}.

Definition trigger_table : list trigger :=
  [ {| fires := any_in ["all customers"; "show customers"; "list customers"];
       statement := fun q => if PyStr.contains q "active"
                             then SQL_CUSTOMERS_ACTIVE else SQL_CUSTOMERS |};
    {| fires := any_in ["count customers"; "how many customers"];
       statement := fun _ => SQL_CUSTOMER_COUNT |};
    {| fires := any_in ["all orders"; "show orders"; "list orders"];
       statement := fun _ => SQL_ORDERS |};
    {| fires := any_in ["count orders"; "how many orders"];
       statement := fun _ => SQL_ORDER_COUNT |};
    {| fires := any_in ["all products"; "show products"; "list products"];
       statement := fun q => if PyStr.contains q "electronics"
                             then SQL_PRODUCTS_ELECTRONICS
                             else SQL_PRODUCTS |};
    {| fires := any_in ["all employees"; "show employees"; "list employees"];
       statement := fun _ => SQL_EMPLOYEES |};
    {| fires := fun q => PyStr.contains q "revenue"
                         && PyStr.contains q "electronics";
       statement := fun _ => SQL_REVENUE_ELECTRONICS |};
    {| fires := fun q => PyStr.contains q "top"
                         && PyStr.contains q "customers";
       statement := fun _ => SQL_TOP_CUSTOMERS |} ].

(** First match wins. *)
Definition first_match (table : list trigger) (question : string)
  : option string :=
  let q := PyStr.lower question in
  option_map (fun tr => statement tr q) (find (fun tr => fires tr q) table).

(** Triggers placed before position [n] of the table. *)
Definition earlier_triggers (n : nat) : list trigger := firstn n trigger_table.

Definition no_earlier_trigger (n : nat) (question : string) : Prop :=
  forall tr, In tr (earlier_triggers n) ->
             fires tr (PyStr.lower question) = false.

(* ===================================================================== *)
(** * The response sanitizer (inside [generate_sql_from_natural_language]) *)
(* ===================================================================== *)

Fixpoint rev_string (s : string) : string :=
  match s with
  | EmptyString => EmptyString
  | String c s' => rev_string s' ++ String c EmptyString
  end.

Definition FENCE : string := "```".

(** [re.sub(r'^```sql\n?', '', s)]: without MULTILINE, [^] is the start of
    the string, so at most the leading marker goes. *)
Definition sub_open_fence (s : string) : string :=
  if PyStr.startswith s "```sql" then
    match PyStr.drop 6 s with
    | String c rest => if Ascii.eqb c PyStr.NL then rest
                       else String c rest
    | EmptyString => EmptyString
    end
  else s.

(** The reversed text with a leading fence (and the newline before it in
    the original) removed. *)
Definition drop_fence_rev (r : string) : string :=
  match PyStr.drop 3 r with
  | String c rest => if Ascii.eqb c PyStr.NL then rest else String c rest
  | EmptyString => EmptyString
  end.

(** [re.sub(r'\n?```$', '', s)]: [$] is the end of the string, or the
    place before a newline that ends the string. *)
Definition sub_close_fence (s : string) : string :=
  let r := rev_string s in
  if PyStr.startswith r FENCE then rev_string (drop_fence_rev r)
  else match r with
       | String c r' =>
           if Ascii.eqb c PyStr.NL && PyStr.startswith r' FENCE
           then rev_string (drop_fence_rev r') ++ String PyStr.NL EmptyString
           else s
       | EmptyString => s
       end.

(** From [response.choices[0].message.content] to the candidate. *)
Definition clean_response (content : string) : string :=
  let sql_query := PyStr.strip content in
  let sql_query := sub_open_fence sql_query in
  let sql_query := sub_close_fence sql_query in
  PyStr.strip sql_query.

(* ===================================================================== *)
(** * Rows and the request/response envelope *)
(* ===================================================================== *)

(** A raised exception: [type(e).__name__] and [str(e)]. *)
Record exn : Type := { exn_type : string; exn_text : string }.

(** What [execute_query] distinguishes among failures. *)
Inductive engine_error : Type :=
| SqliteError : string -> engine_error      (* sqlite3.Error, str(e) *)
| OtherError : string -> engine_error.      (* any other Exception *)

(** [len(results)] printed in decimal. *)
Definition str_of_nat (n : nat) : string :=
  NilEmpty.string_of_uint (Nat.to_uint n).

Definition join_lines (ls : list string) : string :=
  String.concat (String PyStr.NL EmptyString) ls.

(** The f-string sent to the completion service. *)
Definition enhanced_prompt (schema_text user_question : string) : string :=
  join_lines
    [ "You are an expert SQL analyst for a business database. Convert natural language questions to precise SQLite SELECT queries.";
      EmptyString;
      "DATABASE SCHEMA:";
      schema_text;
      EmptyString;
      "QUERY GUIDELINES:";
      "1. Generate ONLY SELECT statements (security requirement)";
      "2. Use proper SQLite syntax with correct JOINs";
      "3. Apply appropriate WHERE clauses for filtering";
      "4. Use aggregate functions (COUNT, SUM, AVG, MAX, MIN) when needed";
      "5. Include proper GROUP BY and ORDER BY clauses";
      "6. Handle date comparisons correctly";
      "7. Return ONLY the SQL query without explanations";
      EmptyString;
      "USER QUESTION: " ++ user_question;
      EmptyString;
      "SQL QUERY:" ].

Definition SUGGESTION : string :=
  "Try asking: " ++ String PyStr.DQUOTE "Show all customers"
  ++ String PyStr.DQUOTE " or "
  ++ String PyStr.DQUOTE "How many orders were placed?"
  ++ String PyStr.DQUOTE EmptyString.

(** [data.get(key, default)] on a JSON object with text fields. *)
Fixpoint dict_get (data : list (string * string)) (key default : string)
  : string :=
  match data with
  | [] => default
  | (k, v) :: data' => if String.eqb k key then v else dict_get data' key default
  end.

(** The question a body carries: the trimmed [message] field,
    [data.get('message', '').strip()]. *)
Definition question_of (fields : list (string * string)) : string :=
  PyStr.strip (dict_get fields "message" EmptyString).

(** The completion path yields no text for question [q]: the client was
    never configured, or the completion call raises. *)
Definition completion_unavailable
    (groq_client : option (string -> string + exn))
    (schema_text : string + exn) (q : string) : Prop :=
  groq_client = None
  \/ exists create text e,
       groq_client = Some create /\ schema_text = inl text
       /\ create (enhanced_prompt text q) = inr e.

(** The completion path yields [content] for question [q]. *)
Definition completion_answers
    (groq_client : option (string -> string + exn))
    (schema_text : string + exn) (q content : string) : Prop :=
  exists create text,
    groq_client = Some create /\ schema_text = inl text
    /\ create (enhanced_prompt text q) = inl content.

(** What the model path leaves in the trace up to the completion call. *)
Definition request_events (text q : string) : trace :=
  [ Call SchemaIntrospector EmptyString;
    Log INFO ("Sending request to Groq for: " ++ q);
    Call CompletionAdapter (enhanced_prompt text q) ].

Section Chatbot.

(** ** Collaborators

    Python's [float] with the two operations [execute_query] applies to
    it, the completion-service client, the schema rendering and the
    storage engine are taken as given. *)

Variable F : Type.
(** [str(value)] for a [float]. *)
Variable float_str : F -> string.
(** [round(value, 2)]. *)
Variable round2 : F -> F.

(** A column value as [sqlite3] hands it over (BLOB left out: [jsonify]
    has no rendering for [bytes]). *)
Inductive value : Type :=
| VNull : value
| VInt : Z -> value
| VReal : F -> value
| VText : string -> value.

(** [dict(row)] for a fetched [sqlite3.Row]: column names with their
    values, in insertion order; a dict holds each key once. *)
Definition row : Type := list (string * value).

(** [groq_client]: [None] when no API key was configured; otherwise the
    completion as a function from the prompt to the content of the first
    choice, or to the exception raised on the way. *)
Variable groq_client : option (string -> string + exn).

(** [format_schema_for_ai(get_database_schema())], or the exception. *)
Variable schema_text : string + exn.

(** [cursor.execute(sql); cursor.fetchall()] with every fetched row
    already turned into its [dict], or the exception raised. *)
Variable engine : string -> list row + engine_error.

(** ** [execute_query] *)

(** [d[key] = v] on an insertion-ordered dict. *)
Fixpoint dict_set (d : row) (key : string) (v : value) : row :=
  match d with
  | [] => [(key, v)]
  | (k, x) :: d' =>
      if String.eqb k key then (k, v) :: d' else (k, x) :: dict_set d' key v
  end.

(** [isinstance(value, float) and '.' in str(value)] *)
Definition needs_rounding (v : value) : bool :=
  match v with
  | VReal x => PyStr.contains (float_str x) "."
  | _ => false
  end.

(** The body of the inner loop, for one item of the dict. *)
Definition format_item (row_dict : row) (item : string * value) : row :=
  let (key, v) := item in
  match v with
  | VReal x =>
      if needs_rounding v then dict_set row_dict key (VReal (round2 x))
      else row_dict
  | _ => row_dict
  end.

(** The inner loop: every item of [row_dict] visited once, the dict
    updated in place (an update of an existing key leaves the order and
    the items still to come untouched). *)
Definition format_row (row_dict : row) : row :=
  fold_left format_item row_dict row_dict.

(** The value the specification asks for in place of [v]. *)
Definition normalized (v : value) : value :=
  match v with
  | VReal x => if PyStr.contains (float_str x) "." then VReal (round2 x)
               else v
  | _ => v
  end.

(** The pair [(success, payload)] of the source as a sum: [inl data]
    is [(True, data)] and [inr text] is [(False, text)]. *)
Definition execute_query (sql_query : string) : M (list row + string) :=
  enter QueryExecutor sql_query ;;;
  match engine sql_query with
  | inl results => ret (inl (map format_row results))
  | inr (SqliteError e) =>
      logger ERROR ("Database error: " ++ e) ;;;
      ret (inr ("Database error: " ++ e))
  | inr (OtherError e) =>
      logger ERROR ("Unexpected error: " ++ e) ;;;
      ret (inr ("Unexpected error: " ++ e))
  end.

(** ** [generate_sql_from_natural_language] *)

Definition on_completion_error (e : exn) (user_question : string)
  : M (option string) :=
  logger ERROR ("Groq API error: " ++ exn_text e) ;;;
  logger ERROR ("Error type: " ++ exn_type e) ;;;
  generate_fallback_sql user_question.

Definition generate_sql_from_natural_language (user_question : string)
  : M (option string) :=
  match groq_client with
  | None =>
      logger ERROR "Groq client not initialized" ;;;
      generate_fallback_sql user_question
  | Some create =>
      enter SchemaIntrospector EmptyString ;;;
      match schema_text with
      | inr e => on_completion_error e user_question
      | inl text =>
          let prompt := enhanced_prompt text user_question in
          logger INFO ("Sending request to Groq for: " ++ user_question) ;;;
          enter CompletionAdapter prompt ;;;
          match create prompt with
          | inr e => on_completion_error e user_question
          | inl content =>
              let sql_query := clean_response content in
              logger INFO ("Generated SQL: " ++ sql_query) ;;;
              ret (Some sql_query)
          end
      end
  end.

(** ** The [/chat] route *)

(** The JSON answer with its HTTP status.  The [timestamp] field (the
    clock) is left out.  The handler's outer [except], which answers 500,
    is not reached on the bodies modelled here: it takes a [message] that
    is not text, or a result [jsonify] cannot render. *)
Record response : Type := {
  http_status : nat;
  success : bool;
  error : option string;
  suggestion : option string;
  generated_sql : option string;
  message : option string;
  results : option (list row);
  result_count : option nat
}.

Definition failure (code : nat) (err : string) (sugg sql : option string)
  : response :=
  {| http_status := code; success := false; error := Some err;
     suggestion := sugg; generated_sql := sql; message := None;
     results := None; result_count := None |}.

Definition MSG_INVALID_JSON : string := "Invalid JSON data".
Definition MSG_EMPTY_MESSAGE : string := "Message cannot be empty".

(** The error text of the no-candidate outcome. *)
Definition generation_failed : string :=
  "Failed to generate SQL query." ++
  match groq_client with
  | None => " Groq client is not initialized - please check your API key."
  | Some _ => " Please try rephrasing your question."
  end.

(** The handler, from the parsed JSON body ([None]: the body is the JSON
    value [null]) to the response.  Bodies are JSON objects with text
    fields.  A request whose body [get_json] cannot parse, a [message]
    that is not text and a result [jsonify] cannot render end in the
    handler's outer [except], with status 500: they lie outside this
    definition. *)
Definition chat (data : option (list (string * string))) : M response :=
  match data with
  | None | Some [] => ret (failure 400 MSG_INVALID_JSON None None)
  | Some fields =>
      let user_message := PyStr.strip (dict_get fields "message" EmptyString) in
      if PyStr.is_empty user_message then
        ret (failure 400 MSG_EMPTY_MESSAGE None None)
      else
        logger INFO ("Processing query: " ++ user_message) ;;;
        sql_query <- generate_sql_from_natural_language user_message ;;
        (* [if not sql_query]: [None] or the empty text *)
        match sql_query with
        | None => ret (failure 200 generation_failed (Some SUGGESTION) None)
        | Some sql =>
            if PyStr.is_empty sql then
              ret (failure 200 generation_failed (Some SUGGESTION) None)
            else
              enter Validator sql ;;;
              let (is_valid, validation_message) := validate_sql_query sql in
              if negb is_valid then
                ret (failure 200 validation_message None (Some sql))
              else
                outcome <- execute_query sql ;;
                match outcome with
                | inl rows =>
                    logger INFO ("Query executed successfully: " ++ sql
                                 ++ " | Results: "
                                 ++ str_of_nat (List.length rows)) ;;;
                    ret {| http_status := 200; success := true;
                           error := None; suggestion := None;
                           generated_sql := Some sql;
                           message := Some ("Found "
                                            ++ str_of_nat (List.length rows)
                                            ++ " result(s)");
                           results := Some rows;
                           result_count := Some (List.length rows) |}
                | inr err => ret (failure 200 err None (Some sql))
                end
        end
  end.

(** ** Closed forms of the runs

    The same computations with the trace written out; the proofs
    relate the handler to them. *)

(** What the executor logs for an engine outcome. *)
Definition executor_log (sql : string) : trace :=
  match engine sql with
  | inl _ => []
  | inr (SqliteError e) => [Log ERROR ("Database error: " ++ e)]
  | inr (OtherError e) => [Log ERROR ("Unexpected error: " ++ e)]
  end.

(** What the executor returns for an engine outcome. *)
Definition executor_result (sql : string) : list row + string :=
  match engine sql with
  | inl rows => inl (map format_row rows)
  | inr (SqliteError e) => inr ("Database error: " ++ e)
  | inr (OtherError e) => inr ("Unexpected error: " ++ e)
  end.

(** What the handler does once a candidate is at hand. *)
Definition after_generation (sql_query : option string)
  : M response :=
  match sql_query with
  | None => ret (failure 200 generation_failed (Some SUGGESTION) None)
  | Some sql =>
      if PyStr.is_empty sql then
        ret (failure 200 generation_failed (Some SUGGESTION) None)
      else
        fun t =>
          let t1 := (t ++ [Call Validator sql])%list in
          if fst (validate_sql_query sql) then
            match executor_result sql with
            | inl rows =>
                ({| http_status := 200; success := true;
                    error := None; suggestion := None;
                    generated_sql := Some sql;
                    message := Some ("Found "
                                     ++ str_of_nat (List.length rows)
                                     ++ " result(s)");
                    results := Some rows;
                    result_count := Some (List.length rows) |},
                 (t1 ++ Call QueryExecutor sql
                    :: [Log INFO ("Query executed successfully: " ++ sql
                                  ++ " | Results: "
                                  ++ str_of_nat (List.length rows))])%list)
            | inr err =>
                (failure 200 err None (Some sql),
                 (t1 ++ Call QueryExecutor sql :: executor_log sql)%list)
            end
          else (failure 200 (snd (validate_sql_query sql)) None (Some sql),
                t1)
  end.

End Chatbot.

Arguments VNull {F}.
Arguments VInt {F} _.
Arguments VReal {F} _.
Arguments VText {F} _.
Arguments dict_set {F} d key v.
Arguments needs_rounding {F} float_str v.
Arguments format_item {F} float_str round2 row_dict item.
Arguments format_row {F} float_str round2 row_dict.
Arguments normalized {F} float_str round2 v.
Arguments execute_query {F} float_str round2 engine sql_query.
Arguments failure {F} code err sugg sql.
Arguments chat {F} float_str round2 groq_client schema_text engine data.
Arguments executor_log {F} engine sql.
Arguments executor_result {F} float_str round2 engine sql.
Arguments after_generation {F} float_str round2 groq_client engine sql_query.
Arguments http_status {F} r.
Arguments success {F} r.
Arguments error {F} r.
Arguments suggestion {F} r.
Arguments generated_sql {F} r.
Arguments results {F} r.
Arguments result_count {F} r.

(* ===================================================================== *)
(** * Vocabulary of the specification *)
(* ===================================================================== *)

(** The normalized form of a candidate: trimmed, then upper-cased. *)
Definition normal_form (candidate : string) : string :=
  PyStr.upper (PyStr.strip candidate).

(** [k] occurs in [s] as a token: each side of the occurrence is an end of
    the text or a character that [delim] accepts. *)
Definition Delimited (delim : ascii -> bool) (k s : string) : Prop :=
  exists pre post,
    s = pre ++ k ++ post
    /\ (pre = EmptyString
        \/ exists pre' c, pre = pre' ++ String c EmptyString /\ delim c = true)
    /\ (post = EmptyString
        \/ exists c post', post = String c post' /\ delim c = true).

Definition is_space_char (c : ascii) : bool := Ascii.eqb c " ".

(** Bounded by space characters (U+0020) only. *)
Definition SpaceDelimited : string -> string -> Prop :=
  Delimited is_space_char.

(** Bounded by any whitespace: spaces, tabs, newlines and the like. *)
Definition WhitespaceDelimited : string -> string -> Prop :=
  Delimited PyStr.isspace.

(** The verdict of the validator is a forbidden-keyword rejection. *)
Definition ReportsForbidden (candidate : string) : Prop :=
  exists keyword, In keyword dangerous_keywords
                  /\ validate_sql_query candidate = (false, MSG_FORBIDDEN keyword).

(** The generic rules of the validator, stated on the text alone. *)
Definition GenericRules (candidate : string) : Prop :=
  PyStr.strip candidate <> EmptyString
  /\ PyStr.startswith (normal_form candidate) "SELECT" = true
  /\ (forall k, In k dangerous_keywords ->
                ~ SpaceDelimited k (normal_form candidate))
  /\ (forall p, In p injection_patterns ->
                ~ Re.Found p (normal_form candidate)).

(* ===================================================================== *)
(** * A small world to run the model in *)
(* ===================================================================== *)

Module Demo.

(** A stand-in for [float]: a count of thousandths. *)
Definition F : Type := nat.

Definition pad3 (n : nat) : string :=
  (if (n <? 100)%nat then "0" else EmptyString)
  ++ (if (n <? 10)%nat then "0" else EmptyString) ++ str_of_nat n.

Definition float_str (x : F) : string :=
  str_of_nat (x / 1000)%nat ++ "." ++ pad3 (x mod 1000)%nat.

(** To the nearest hundredth. *)
Definition round2 (x : F) : F := (((x + 5) / 10) * 10)%nat.

Definition no_schema_error : string + exn := inl "customers(id, name)".

(** A completion service that always answers [content]. *)
Definition answering (content : string) : option (string -> string + exn) :=
  Some (fun _ => inl content).

(** A completion service whose every call raises. *)
Definition raising : option (string -> string + exn) :=
  Some (fun _ => inr {| exn_type := "APIConnectionError";
                        exn_text := "Connection error." |}).

(** A storage engine holding one customer; it knows one statement. *)
Definition engine (sql : string) : list (row F) + engine_error :=
  if String.eqb sql "SELECT * FROM customers" then
    inl [ [ ("id", VInt 1%Z); ("name", VText "John Smith");
            ("balance", VReal 4567) ] ]
  else inr (SqliteError "incomplete input").

(** The JSON object [{"message": text}]. *)
Definition fields (text : string) : list (string * string) :=
  [("message", text)].

(** A completion service wrapped in its answer's usual code fence. *)
Definition fenced (sql : string) : string :=
  "```sql" ++ String PyStr.NL sql ++ String PyStr.NL "```".

(** The handler in this world, for a given completion client. *)
Definition chat (client : option (string -> string + exn))
    (text : string) : response F * trace :=
  run (chat float_str round2 client no_schema_error engine
            (Some (fields text))).

End Demo.

(** A candidate in which the keyword stands between two tabs. *)
Definition tabbed_drop : string :=
  "SELECT 1" ++ String PyStr.TAB "DROP" ++ String PyStr.TAB "2".

(** A candidate in which the keyword stands on a line of its own. *)
Definition newline_drop : string :=
  "SELECT 1" ++ String PyStr.NL "DROP" ++ String PyStr.NL "2".

(* ===================================================================== *)
(** * Further vocabulary *)
(* ===================================================================== *)

(** [s.endswith(p)]. *)
Definition ends_with (s p : string) : bool :=
  PyStr.startswith (rev_string s) (rev_string p).

(** Every character of [s] is whitespace. *)
Fixpoint all_blank (s : string) : bool :=
  match s with
  | EmptyString => true
  | String c s' => PyStr.isspace c && all_blank s'
  end.

(** No character of [s] is a newline. *)
Fixpoint one_line (s : string) : bool :=
  match s with
  | EmptyString => true
  | String c s' => negb (Ascii.eqb c PyStr.NL) && one_line s'
  end.

(** [s.isascii()]: every code point of [s] is below 128.  On such text
    [PyStr.upper], [PyStr.lower] and [PyStr.strip] are [str.upper],
    [str.lower] and [str.strip] exactly. *)
Fixpoint isascii (s : string) : bool :=
  match s with
  | EmptyString => true
  | String c s' => (nat_of_ascii c <? 128)%nat && isascii s'
  end.

(** The request carries no question: a [null] body, an empty object, or
    a [message] that is missing, empty or blank. *)
Definition blank_body (data : option (list (string * string))) : bool :=
  match data with
  | None => true
  | Some [] => true
  | Some fields => PyStr.is_empty (question_of fields)
  end.

(** A statement inside a code fence, with or without the newline after
    the opening marker and before the closing one. *)
Definition fence (open_nl close_nl : bool) (sql : string) : string :=
  "```sql" ++ (if open_nl then String PyStr.NL EmptyString else EmptyString)
  ++ sql ++ (if close_nl then String PyStr.NL EmptyString else EmptyString)
  ++ "```".

(** The text [execute_query] returns and logs for an engine error. *)
Definition error_text (err : engine_error) : string :=
  match err with
  | SqliteError m => "Database error: " ++ m
  | OtherError m => "Unexpected error: " ++ m
  end.

(** The events of a failed generation attempt, up to the fallback. *)
Definition failure_events (e : exn) (q : string) : trace :=
  [ Log ERROR ("Groq API error: " ++ exn_text e);
    Log ERROR ("Error type: " ++ exn_type e);
    Call FallbackGenerator q ].


Section Runs.

Local Open Scope list_scope.

Variable F : Type.
Variable float_str : F -> string.
Variable round2 : F -> F.
Variable groq_client : option (string -> string + exn).
Variable schema_text : string + exn.
Variable engine : string -> list (row F) + engine_error.

(** The four ways a generation attempt can go. *)
Inductive generation : string -> option string -> trace -> Prop :=
| GenUnconfigured q :
    groq_client = None ->
    generation q (fallback_chain (PyStr.lower q))
      (Log ERROR "Groq client not initialized"
         :: Call FallbackGenerator q :: warning_for q)
| GenSchemaRaises q create e :
    groq_client = Some create -> schema_text = inr e ->
    generation q (fallback_chain (PyStr.lower q))
      (Call SchemaIntrospector EmptyString
         :: failure_events e q ++ warning_for q)
| GenCompletionRaises q create text e :
    groq_client = Some create -> schema_text = inl text ->
    create (enhanced_prompt text q) = inr e ->
    generation q (fallback_chain (PyStr.lower q))
      (request_events text q ++ failure_events e q ++ warning_for q)
| GenAnswers q create text content :
    groq_client = Some create -> schema_text = inl text ->
    create (enhanced_prompt text q) = inl content ->
    generation q (Some (clean_response content))
      (request_events text q
         ++ [Log INFO ("Generated SQL: " ++ clean_response content)%string]).

(** The four ways the handler can go once generation is over. *)
Inductive conclusion (sq : option string)
  : response F -> trace -> Prop :=
| NoCandidate :
    sq = None \/ sq = Some EmptyString ->
    conclusion sq (failure 200 (generation_failed groq_client) (Some SUGGESTION) None) []
| Rejected sql :
    sq = Some sql -> sql <> EmptyString ->
    fst (validate_sql_query sql) = false ->
    conclusion sq
      (failure 200 (snd (validate_sql_query sql)) None (Some sql))
      [Call Validator sql]
| EngineFails sql err :
    sq = Some sql -> sql <> EmptyString ->
    fst (validate_sql_query sql) = true ->
    executor_result float_str round2 engine sql = inr err ->
    conclusion sq (failure 200 err None (Some sql))
      (Call Validator sql :: Call QueryExecutor sql :: executor_log engine sql)
| Succeeds sql rows :
    sq = Some sql -> sql <> EmptyString ->
    fst (validate_sql_query sql) = true ->
    engine sql = inl rows ->
    conclusion sq
      {| http_status := 200; success := true; error := None;
         suggestion := None; generated_sql := Some sql;
         message := Some ("Found "
                          ++ str_of_nat
                               (List.length
                                  (map (format_row float_str round2) rows))
                          ++ " result(s)")%string;
         results := Some (map (format_row float_str round2) rows);
         result_count :=
           Some (List.length (map (format_row float_str round2) rows)) |}
      [ Call Validator sql; Call QueryExecutor sql;
        Log INFO ("Query executed successfully: " ++ sql ++ " | Results: "
                  ++ str_of_nat
                       (List.length
                          (map (format_row float_str round2) rows)))%string ].

End Runs.

Arguments conclusion {F} float_str round2 groq_client engine sq _ _.
Arguments GenUnconfigured {groq_client schema_text} q _.
Arguments GenSchemaRaises {groq_client schema_text} q create e _ _.
Arguments GenCompletionRaises {groq_client schema_text} q create text e _ _ _.
Arguments GenAnswers {groq_client schema_text} q create text content _ _ _.
Arguments NoCandidate {F float_str round2 groq_client engine} sq _.
Arguments Rejected {F float_str round2 groq_client engine} sq sql _ _ _.
Arguments EngineFails {F float_str round2 groq_client engine} sq sql err _ _ _ _.
Arguments Succeeds {F float_str round2 groq_client engine} sq sql rows _ _ _ _.

(* ===================================================================== *)
(** * The schema: [get_database_schema] and [format_schema_for_ai] *)
(* ===================================================================== *)

(** The prompt up to the schema text. *)
Definition PROMPT_HEAD : string :=
  join_lines
    [ "You are an expert SQL analyst for a business database. Convert natural language questions to precise SQLite SELECT queries.";
      EmptyString;
      "DATABASE SCHEMA:";
      EmptyString ].

(** The prompt between the schema text and the question. *)
Definition PROMPT_RULES : string :=
  join_lines
    [ EmptyString;
      EmptyString;
      "QUERY GUIDELINES:";
      "1. Generate ONLY SELECT statements (security requirement)";
      "2. Use proper SQLite syntax with correct JOINs";
      "3. Apply appropriate WHERE clauses for filtering";
      "4. Use aggregate functions (COUNT, SUM, AVG, MAX, MIN) when needed";
      "5. Include proper GROUP BY and ORDER BY clauses";
      "6. Handle date comparisons correctly";
      "7. Return ONLY the SQL query without explanations";
      EmptyString;
      "USER QUESTION: " ].

(** The prompt after the question. *)
Definition PROMPT_TAIL : string :=
  join_lines [ EmptyString; EmptyString; "SQL QUERY:" ].

(* ===================================================================== *)
(** * The earlier validator: [SecureChatbot.validate_sql_query] of
      [main.py] *)
(* ===================================================================== *)

Module MainApp.

Definition dangerous_keywords : list string :=
  [ "DROP"; "DELETE"; "INSERT"; "UPDATE"; "ALTER"; "CREATE";
    "EXEC"; "EXECUTE"; "TRUNCATE"; "REPLACE"; "MERGE" ].

Definition MSG_NOT_SELECT : string :=
  "Only SELECT queries are allowed for security reasons".
Definition MSG_FORBIDDEN (keyword : string) : string :=
  "Query contains forbidden keyword: " ++ keyword.
Definition MSG_VALID : string := "Query is valid".

Definition validate_sql_query (query : string) : bool * string :=
  let query := PyStr.upper (PyStr.strip query) in
  if negb (PyStr.startswith query "SELECT") then (false, MSG_NOT_SELECT)
  else
    match find (fun keyword => PyStr.contains query keyword)
               dangerous_keywords with
    | Some keyword => (false, MSG_FORBIDDEN keyword)
    | None => (true, MSG_VALID)
    end.

End MainApp.

(** [''.join(parts)]. *)
Definition join (parts : list string) : string :=
  fold_right append EmptyString parts.

Module Schema.

(** One entry of [schema_info[table]['columns']]. *)
Record column_info : Type := {
  name : string;
  type : string;
  not_null : bool;
  primary_key : bool;
  default_value : option string
}.

(** One entry of [schema_info[table]['foreign_keys']].  The referenced
    column is [None] when the constraint names only the table. *)
Record foreign_key : Type := {
  column : string;
  references_table : string;
  references_column : option string
}.

Record table_info : Type := {
  columns : list column_info;
  foreign_keys : list foreign_key
}.

(** The dict from table name to its description, in insertion order. *)
Definition schema_info : Type := list (string * table_info).

(** A row of [PRAGMA table_info(t)]:
    [(cid, name, type, notnull, dflt_value, pk)]. *)
Record table_info_row : Type := {
  cid : Z;
  col_name : string;
  col_type : string;
  notnull : Z;
  dflt_value : option string;
  pk : Z
}.

(** A row of [PRAGMA foreign_key_list(t)], up to the fields read:
    [(id, seq, table, from, to, ...)]. *)
Record foreign_key_row : Type := {
  fk_id : Z;
  fk_seq : Z;
  fk_table : string;
  fk_from : string;
  fk_to : option string
}.

(** The catalogue as the three queries of [get_database_schema] see it. *)
Record catalogue : Type := {
  tables : list string;
  pragma_table_info : string -> list table_info_row;
  pragma_foreign_key_list : string -> list foreign_key_row
}.

(** [bool(n)] for an integer. *)
Definition truthy (n : Z) : bool := negb (Z.eqb n 0).

Definition column_of (col : table_info_row) : column_info :=
  {| name := col_name col;
     type := col_type col;
     not_null := truthy (notnull col);
     primary_key := truthy (pk col);
     default_value := dflt_value col |}.

Definition foreign_key_of (fk : foreign_key_row) : foreign_key :=
  {| column := fk_from fk;
     references_table := fk_table fk;
     references_column := fk_to fk |}.

(** [schema_info[table_name] = info]. *)
Fixpoint schema_set (schema : schema_info) (table_name : string)
    (info : table_info) : schema_info :=
  match schema with
  | [] => [(table_name, info)]
  | (k, x) :: rest =>
      if String.eqb k table_name then (k, info) :: rest
      else (k, x) :: schema_set rest table_name info
  end.

Definition describe (db : catalogue) (table_name : string) : table_info :=
  {| columns := map column_of (pragma_table_info db table_name);
     foreign_keys := map foreign_key_of (pragma_foreign_key_list db table_name) |}.

(** [get_database_schema] on a catalogue that can be read. *)
Definition get_database_schema (db : catalogue) : schema_info :=
  fold_left (fun schema table_name =>
               schema_set schema table_name (describe db table_name))
            (tables db) [].

Definition NLs : string := String PyStr.NL EmptyString.

(** [f" [{', '.join(constraints)}]" if constraints else ""] *)
Definition constraint_text (c : column_info) : string :=
  let constraints :=
    ((if primary_key c then ["PRIMARY KEY"] else [])
       ++ (if not_null c then ["NOT NULL"] else []))%list in
  match constraints with
  | [] => EmptyString
  | _ => " [" ++ String.concat ", " constraints ++ "]"
  end.

(** The line of one column. *)
Definition column_line (c : column_info) : string :=
  "   • " ++ name c ++ ": " ++ type c ++ constraint_text c ++ NLs.

(** [str(x)] for a value that is text or [None]. *)
Definition str_opt (x : option string) : string :=
  match x with
  | Some s => s
  | None => "None"
  end.

(** The line of one foreign key. *)
Definition foreign_key_line (fk : foreign_key) : string :=
  "      - " ++ column fk ++ " → " ++ references_table fk ++ "."
  ++ str_opt (references_column fk) ++ NLs.

(** The body of the outer loop: the text so far, extended by one table. *)
Definition format_table (schema_text : string)
    (item : string * table_info) : string :=
  let (table_name, info) := item in
  let schema_text :=
    schema_text ++ (NLs ++ "📋 Table: " ++ PyStr.upper table_name ++ NLs) in
  let schema_text :=
    fold_left (fun text c => text ++ column_line c) (columns info)
              schema_text in
  let schema_text :=
    match foreign_keys info with
    | [] => schema_text
    | fks =>
        fold_left (fun text fk => text ++ foreign_key_line fk) fks
                  (schema_text ++ ("   🔗 Foreign Keys:" ++ NLs))
    end in
  schema_text ++ NLs.

Definition format_schema_for_ai (schema : schema_info) : string :=
  fold_left format_table schema EmptyString.

(** The text of one table, on its own. *)
Definition table_block (item : string * table_info) : string :=
  NLs ++ "📋 Table: " ++ PyStr.upper (fst item) ++ NLs
  ++ join (map column_line (columns (snd item)))
  ++ match foreign_keys (snd item) with
     | [] => EmptyString
     | fks => "   🔗 Foreign Keys:" ++ NLs ++ join (map foreign_key_line fks)
     end
  ++ NLs.

End Schema.

(** A small catalogue: two tables of the application's database, with
    the rows the two PRAGMA queries return for them. *)
Module SampleDb.
Import Schema.

Definition col (i : Z) (n t : string) (nn : Z) (d : option string) (k : Z)
  : table_info_row :=
  {| cid := i; col_name := n; col_type := t; notnull := nn;
     dflt_value := d; pk := k |}.

Definition table_info_of (t : string) : list table_info_row :=
  if String.eqb t "customers" then
    [ col 0 "id" "INTEGER" 0 None 1;
      col 1 "name" "TEXT" 1 None 0;
      col 2 "status" "TEXT" 0 (Some "'active'") 0 ]
  else if String.eqb t "orders" then
    [ col 0 "id" "INTEGER" 0 None 1;
      col 1 "customer_id" "INTEGER" 1 None 0 ]
  else [].

Definition foreign_keys_of (t : string) : list foreign_key_row :=
  if String.eqb t "orders" then
    [ {| fk_id := 0; fk_seq := 0; fk_table := "customers";
         fk_from := "customer_id"; fk_to := Some "id" |} ]
  else [].

Definition db : catalogue :=
  {| tables := ["customers"; "orders"];
     pragma_table_info := table_info_of;
     pragma_foreign_key_list := foreign_keys_of |}.

End SampleDb.

(** Dropping an optional leading newline. *)
Definition skip_newline (s : string) : string :=
  match s with
  | String c rest => if Ascii.eqb c PyStr.NL then rest else String c rest
  | EmptyString => EmptyString
  end.

(* ===================================================================== *)
(** * Facts about strings *)
(* ===================================================================== *)

Module StrFacts.
Import PyStr.

(** A test that decides [P] answers [false] exactly when [P] fails. *)
Lemma decides_false (b : bool) (P : Prop) :
  (b = true <-> P) -> (b = false <-> ~ P).
Proof.
  intros [H1 H2]. destruct b; split; intros H; try reflexivity.
  - discriminate.
  - exfalso. now apply H, H1.
  - intros HP. now apply H2 in HP.
Qed.

Lemma app_nil_r (s : string) : s ++ EmptyString = s.
Proof. induction s as [|c s IH]; simpl; [reflexivity | now rewrite IH]. Qed.

Lemma app_assoc (a b c : string) : (a ++ b) ++ c = a ++ (b ++ c).
Proof. induction a as [|x a IH]; simpl; [reflexivity | now rewrite IH]. Qed.

Lemma app_eq_nil (a b : string) :
  a ++ b = EmptyString -> a = EmptyString /\ b = EmptyString.
Proof. destruct a; simpl; [auto | discriminate]. Qed.

(** Two texts that agree after one more character agree before it. *)
Lemma snoc_inj (a b : string) (c d : ascii) :
  a ++ String c EmptyString = b ++ String d EmptyString -> a = b /\ c = d.
Proof.
  revert b; induction a as [|x a IH]; intros [|y b] H; simpl in H.
  - injection H as ->; auto.
  - injection H as _ H. destruct b; discriminate.
  - injection H as _ H. destruct a; discriminate.
  - injection H as -> H. destruct (IH _ H) as [-> ->]; auto.
Qed.

(** Every non-empty text ends in a last character. *)
Lemma snoc_cases (s : string) :
  s = EmptyString \/ exists s' c, s = s' ++ String c EmptyString.
Proof.
  induction s as [|x s IH]; [now left | right].
  destruct IH as [-> | (s' & c & ->)].
  - now exists EmptyString, x.
  - now exists (String x s'), c.
Qed.

Lemma startswith_spec (s p : string) :
  startswith s p = true <-> exists t, s = p ++ t.
Proof.
  revert s; induction p as [|c p IH]; intros s; simpl.
  - destruct s; simpl; (split; [eexists; reflexivity | reflexivity]).
  - destruct s as [|d s]; simpl.
    + split; [discriminate | intros [t H]; discriminate].
    + rewrite andb_true_iff, Ascii.eqb_eq, IH. split.
      * intros [-> [t ->]]. now exists t.
      * intros [t H]. injection H as -> ->. split; [reflexivity | now exists t].
Qed.

Lemma contains_spec (s p : string) :
  contains s p = true <-> exists a b, s = a ++ p ++ b.
Proof.
  induction s as [|d s IH]; cbn [contains].
  - rewrite orb_false_r, startswith_spec. split.
    + intros [t H]. now exists EmptyString, t.
    + intros (a & b & H). destruct a; [now exists b | discriminate].
  - rewrite orb_true_iff, IH, startswith_spec. split.
    + intros [[t H] | (a & b & ->)].
      * now exists EmptyString, t.
      * now exists (String d a), b.
    + intros (a & b & H). destruct a as [|x a]; simpl in H.
      * left. now exists b.
      * right. injection H as _ ->. now exists a, b.
Qed.

Lemma contains_false (s p : string) :
  contains s p = false <-> ~ exists a b, s = a ++ p ++ b.
Proof.
  apply decides_false, contains_spec.
Qed.

End StrFacts.

(* ===================================================================== *)
(** * The matcher agrees with the language of the expression *)
(* ===================================================================== *)

Module ReFacts.
Import Re.

Lemma cat_inv (r1 r2 : regex) (s : string) :
  Matches (Cat r1 r2) s ->
  exists s1 s2, s = s1 ++ s2 /\ Matches r1 s1 /\ Matches r2 s2.
Proof. intros H; inversion H; subst; eauto. Qed.

Lemma nullable_spec (r : regex) :
  nullable r = true <-> Matches r EmptyString.
Proof.
  induction r; simpl.
  - split; [discriminate | intros H; inversion H].
  - split; [constructor | reflexivity].
  - split; [discriminate | intros H; inversion H].
  - split; [discriminate | intros H; inversion H].
  - split; [discriminate | intros H; inversion H].
  - rewrite andb_true_iff, IHr1, IHr2. split.
    + intros [H1 H2]. exact (MCat _ _ _ _ H1 H2).
    + intros H. apply cat_inv in H as (s1 & s2 & E & H1 & H2).
      symmetry in E. apply StrFacts.app_eq_nil in E as [-> ->]. auto.
  - rewrite orb_true_iff, IHr1, IHr2. split.
    + intros [H | H]; [now apply MAltL | now apply MAltR].
    + intros H; inversion H; subst; auto.
  - split; [constructor | reflexivity].
Qed.

(** A non-empty match of [Star r] starts with a non-empty match of [r]. *)
Lemma star_cons_gen (q : regex) (w : string) :
  Matches q w ->
  forall r c s, q = Star r -> w = String c s ->
  exists s1 s2, s = s1 ++ s2 /\ Matches r (String c s1)
                /\ Matches (Star r) s2.
Proof.
  intros H.
  induction H as [| | | | | | | |r' s1 s2 H1 IH1 H2 IH2];
    intros r0 c0 s0 Eq Ew; try discriminate.
  injection Eq as ->.
  destruct s1 as [|d s1]; simpl in Ew.
  - now apply IH2.
  - injection Ew as -> <-. now exists s1, s2.
Qed.

Lemma star_cons (r : regex) (c : ascii) (s : string) :
  Matches (Star r) (String c s) ->
  exists s1 s2, s = s1 ++ s2 /\ Matches r (String c s1)
                /\ Matches (Star r) s2.
Proof. intros H. now apply (star_cons_gen _ _ H). Qed.

Lemma deriv_spec (r : regex) (c : ascii) (s : string) :
  Matches (deriv c r) s <-> Matches r (String c s).
Proof.
  revert s; induction r; intros s; simpl.
  - split; intros H; inversion H.
  - split; intros H; inversion H.
  - destruct (Ascii.eqb_spec c a) as [-> | Hne]; split; intros H;
      inversion H; subst; try constructor; congruence.
  - destruct (Ascii.eqb_spec c PyStr.NL) as [-> | Hne]; split; intros H;
      inversion H; subst; try (now constructor); congruence.
  - destruct (PyStr.isspace c) eqn:Hc; split; intros H;
      inversion H; subst; try (now constructor); congruence.
  - assert (Hcat : Matches (Cat (deriv c r1) r2) s ->
                   Matches (Cat r1 r2) (String c s)).
    { intros H. apply cat_inv in H as (s1 & s2 & -> & H1 & H2).
      apply IHr1 in H1. exact (MCat _ _ _ _ H1 H2). }
    assert (Hinv : Matches (Cat r1 r2) (String c s) ->
                   Matches (Cat (deriv c r1) r2) s
                   \/ (Matches r1 EmptyString /\ Matches (deriv c r2) s)).
    { intros H. apply cat_inv in H as (s1 & s2 & E & H1 & H2).
      destruct s1 as [|d s1]; simpl in E.
      - right. subst s2. split; [assumption | now apply IHr2].
      - injection E as <- ->. left. apply MCat; [now apply IHr1 | assumption]. }
    destruct (nullable r1) eqn:Hn.
    + split.
      * intros H. inversion H; subst; [now apply Hcat |].
        apply nullable_spec in Hn.
        change (String c s) with (EmptyString ++ String c s).
        apply MCat; [assumption | now apply IHr2].
      * intros H. destruct (Hinv H) as [H' | [_ H']];
          [now apply MAltL | now apply MAltR].
    + split; [exact Hcat |].
      intros H. destruct (Hinv H) as [H' | [H' _]]; [assumption |].
      apply nullable_spec in H'. congruence.
  - split; intros H; inversion H; subst.
    + apply MAltL. now apply IHr1.
    + apply MAltR. now apply IHr2.
    + apply MAltL. now apply IHr1.
    + apply MAltR. now apply IHr2.
  - split.
    + intros H. apply cat_inv in H as (s1 & s2 & -> & H1 & H2).
      apply IHr in H1.
      change (String c (s1 ++ s2)) with (String c s1 ++ s2).
      now apply MStarApp.
    + intros H. apply star_cons in H as (s1 & s2 & -> & H1 & H2).
      apply MCat; [now apply IHr | assumption].
Qed.

Lemma prefix_match_spec (r : regex) (s : string) :
  prefix_match r s = true <->
  exists m rest, s = m ++ rest /\ Matches r m.
Proof.
  revert r; induction s as [|c s IH]; intros r; simpl.
  - rewrite orb_false_r, nullable_spec. split.
    + intros H. now exists EmptyString, EmptyString.
    + intros (m & rest & E & H). symmetry in E.
      apply StrFacts.app_eq_nil in E as [-> _]. assumption.
  - rewrite orb_true_iff, nullable_spec, IH. split.
    + intros [H | (m & rest & -> & H)].
      * now exists EmptyString, (String c s).
      * exists (String c m), rest. split; [reflexivity | now apply deriv_spec].
    + intros (m & rest & E & H). destruct m as [|d m]; simpl in E.
      * now left.
      * injection E as -> ->. right. exists m, rest.
        split; [reflexivity | now apply deriv_spec].
Qed.

(** [search] decides [Found]. *)
Lemma search_spec (r : regex) (s : string) :
  search r s = true <-> Found r s.
Proof.
  unfold Found. induction s as [|c s IH]; cbn [search].
  - rewrite orb_false_r, prefix_match_spec. split.
    + intros (m & rest & E & H). now exists EmptyString, m, rest.
    + intros (pre & m & post & E & H). destruct pre; [|discriminate].
      now exists m, post.
  - rewrite orb_true_iff, prefix_match_spec, IH. split.
    + intros [(m & rest & E & H) | (pre & m & post & -> & H)].
      * now exists EmptyString, m, rest.
      * now exists (String c pre), m, post.
    + intros (pre & m & post & E & H). destruct pre as [|d pre]; simpl in E.
      * left. now exists m, post.
      * injection E as _ ->. right. now exists pre, m, post.
Qed.

Lemma search_false (r : regex) (s : string) :
  search r s = false <-> ~ Found r s.
Proof.
  apply StrFacts.decides_false, search_spec.
Qed.

End ReFacts.

(* ===================================================================== *)
(** * The validator *)
(* ===================================================================== *)

Module ValidatorFacts.
Import PyStr StrFacts.

Local Abbreviation SP := (String " " EmptyString).

(** Equal up to re-association of appends. *)
Ltac flatten :=
  repeat (progress (rewrite ?app_assoc, ?app_nil_r; simpl)); reflexivity.

(** What follows an occurrence that is closed by a space in the padded
    text: nothing, or something that begins with a space. *)
Lemma padded_tail (q m b : string) :
  q ++ SP = m ++ SP ++ b ->
  exists post, q = m ++ post
               /\ (post = EmptyString
                   \/ exists c post', post = String c post'
                                      /\ is_space_char c = true).
Proof.
  intros E. destruct (snoc_cases b) as [-> | (b' & c & ->)].
  - rewrite app_nil_r in E. apply snoc_inj in E as [-> _].
    exists EmptyString. rewrite app_nil_r. auto.
  - rewrite <- !app_assoc in E. apply snoc_inj in E as [-> _].
    exists (SP ++ b'). rewrite <- app_assoc. split; [reflexivity |].
    right. now exists " "%char, b'.
Qed.

(** The test of the keyword loop decides space-delimited occurrence. *)
Lemma keyword_hit_spec (q k : string) :
  keyword_hit q k = true <-> SpaceDelimited k q.
Proof.
  unfold keyword_hit, SpaceDelimited, Delimited.
  rewrite orb_true_iff, contains_spec, startswith_spec. split.
  - intros [(a & b & E) | (t & E)].
    + destruct a as [|x a]; simpl in E; injection E as E.
      * rewrite app_assoc in E. apply padded_tail in E as (post & -> & Hpost).
        exists EmptyString, post. auto.
      * subst x.
        replace (a ++ String " " ((k ++ SP) ++ b))
          with (((a ++ SP) ++ k) ++ SP ++ b) in H
          by (rewrite !app_assoc; reflexivity).
        apply padded_tail in H as (post & -> & Hpost).
        exists (a ++ SP), post. rewrite app_assoc. split; [reflexivity |].
        split; [right; now exists a, " "%char | assumption].
    + exists EmptyString, (SP ++ t). rewrite E, app_assoc.
      split; [reflexivity |]. split; [now left | right; now exists " "%char, t].
  - intros (pre & post & -> & Hpre & Hpost). left.
    destruct Hpre as [-> | (pre' & c & -> & Hc)];
      destruct Hpost as [-> | (d & post' & -> & Hd)];
      try (apply Ascii.eqb_eq in Hc; subst c);
      try (apply Ascii.eqb_eq in Hd; subst d).
    + exists EmptyString, EmptyString. flatten.
    + exists EmptyString, (post' ++ SP). flatten.
    + exists (SP ++ pre'), EmptyString. flatten.
    + exists (SP ++ pre'), (post' ++ SP). flatten.
Qed.

Lemma upper_nil (s : string) : upper s = EmptyString -> s = EmptyString.
Proof. destruct s; [reflexivity | discriminate]. Qed.

Lemma is_empty_spec (s : string) : is_empty s = true <-> s = EmptyString.
Proof. destruct s; simpl; split; congruence. Qed.

(** The first test of the validator fails exactly on blank text. *)
Lemma blank_test (query : string) :
  is_empty query || is_empty (strip query) = true
  <-> strip query = EmptyString.
Proof.
  rewrite orb_true_iff, !is_empty_spec. split; [|auto].
  intros [-> | H]; [reflexivity | assumption].
Qed.

(** A normal form that starts with SELECT is not blank. *)
Lemma select_not_blank (C : string) :
  startswith (normal_form C) "SELECT" = true -> strip C <> EmptyString.
Proof.
  unfold normal_form. intros H E. rewrite E in H. discriminate.
Qed.

(** Acceptance is exactly the conjunction of the generic rules. *)
Lemma accept_iff (C : string) :
  fst (validate_sql_query C) = true <-> GenericRules C.
Proof.
  unfold validate_sql_query, GenericRules. fold (normal_form C).
  destruct (is_empty C || is_empty (strip C)) eqn:Hb.
  { apply blank_test in Hb. cbn [fst]. split; [discriminate | tauto]. }
  assert (Hne : strip C <> EmptyString).
  { intros E. apply blank_test in E. congruence. }
  destruct (startswith (normal_form C) "SELECT") eqn:Hs; cbn [negb fst].
  2: { split; [discriminate | intros (_ & H & _); discriminate]. }
  destruct (find (keyword_hit (normal_form C)) dangerous_keywords)
    as [k|] eqn:Hf.
  { apply find_some in Hf as [Hin Hk]. apply keyword_hit_spec in Hk.
    cbn [fst].
    split; [discriminate | intros (_ & _ & H & _); now elim (H k)]. }
  destruct (existsb (fun pattern => Re.search pattern (normal_form C))
                    injection_patterns) eqn:He; cbn [fst].
  { apply existsb_exists in He as (p & Hin & Hp).
    apply ReFacts.search_spec in Hp.
    split; [discriminate | intros (_ & _ & _ & H); now elim (H p)]. }
  split; [intros _ | reflexivity].
  repeat split; try assumption.
  - intros k Hin Hk. apply keyword_hit_spec in Hk.
    pose proof (find_none _ _ Hf k Hin). congruence.
  - intros p Hin Hp. apply ReFacts.search_spec in Hp.
    assert (existsb (fun pattern => Re.search pattern (normal_form C))
                    injection_patterns = true)
      by (apply existsb_exists; now exists p).
    congruence.
Qed.

(** The verdict on an accepted candidate. *)
Lemma accept_verdict (C : string) :
  fst (validate_sql_query C) = true ->
  validate_sql_query C = (true, MSG_PASSED).
Proof.
  unfold validate_sql_query.
  destruct (is_empty C || is_empty (strip C)); [discriminate |].
  destruct (startswith (upper (strip C)) "SELECT"); [|discriminate].
  cbn [negb].
  destruct (find _ dangerous_keywords); [discriminate |].
  destruct (existsb _ injection_patterns); [discriminate | reflexivity].
Qed.

(** Past the SELECT test, a forbidden-keyword verdict is exactly the
    presence of a space-delimited forbidden keyword. *)
Lemma forbidden_iff (C : string) :
  startswith (normal_form C) "SELECT" = true ->
  (ReportsForbidden C
   <-> exists k, In k dangerous_keywords /\ SpaceDelimited k (normal_form C)).
Proof.
  intros Hs. pose proof (select_not_blank C Hs) as Hne.
  unfold ReportsForbidden, validate_sql_query. fold (normal_form C).
  destruct (is_empty C || is_empty (strip C)) eqn:Hb.
  { apply blank_test in Hb. contradiction. }
  rewrite Hs. cbn [negb].
  destruct (find (keyword_hit (normal_form C)) dangerous_keywords)
    as [k|] eqn:Hf.
  - apply find_some in Hf as [Hin Hk]. apply keyword_hit_spec in Hk.
    split; intros _; exists k; auto.
  - split.
    + intros (k & _ & H).
      destruct (existsb _ injection_patterns); discriminate.
    + intros (k & Hin & Hk). apply keyword_hit_spec in Hk.
      pose proof (find_none _ _ Hf k Hin). congruence.
Qed.

End ValidatorFacts.

(** The keyword between tabs is a whitespace-delimited token. *)
Lemma tabbed_drop_is_a_token :
  WhitespaceDelimited "DROP" (normal_form tabbed_drop).
Proof.
  exists ("SELECT 1" ++ String PyStr.TAB EmptyString),
         (String PyStr.TAB "2").
  split; [reflexivity |]. split; right.
  - now exists "SELECT 1", PyStr.TAB.
  - now exists PyStr.TAB, "2".
Qed.

(** C1, as the specification words it, fails: the candidate
    [SELECT 1<TAB>DROP<TAB>2] is accepted although the forbidden keyword
    DROP stands in its normalized form as a token bounded by whitespace. *)
Lemma C1_counterexample :
  fst (validate_sql_query tabbed_drop) = true
  /\ In "DROP" dangerous_keywords
  /\ WhitespaceDelimited "DROP" (normal_form tabbed_drop).
Proof.
  split; [vm_compute; reflexivity |].
  split; [simpl; auto | exact tabbed_drop_is_a_token].
Qed.

(** C1 (amended): whenever [validate_sql_query] accepts a candidate, its
    trimmed, upper-cased form starts with SELECT, contains none of the 14
    forbidden keywords bounded on both sides by a space character or an end
    of the text, and no part of it matches any of the injection patterns
    (stacked mutating statement, [--], one-line block comment,
    UNION ... SELECT, OR/AND ... 1=1). *)
Theorem C1_accepted_candidate_passes_every_rule (C : string) :
  fst (validate_sql_query C) = true ->
  PyStr.startswith (normal_form C) "SELECT" = true
  /\ List.length dangerous_keywords = 14
  /\ (forall k, In k dangerous_keywords -> ~ SpaceDelimited k (normal_form C))
  /\ (forall p, In p injection_patterns -> ~ Re.Found p (normal_form C)).
Proof.
  intros H. apply ValidatorFacts.accept_iff in H as (_ & Hs & Hk & Hp).
  repeat split; assumption.
Qed.

Lemma C1_witness :
  PyStr.startswith (normal_form "select name from customers") "SELECT" = true
  /\ List.length dangerous_keywords = 14
  /\ (forall k, In k dangerous_keywords ->
        ~ SpaceDelimited k (normal_form "select name from customers"))
  /\ (forall p, In p injection_patterns ->
        ~ Re.Found p (normal_form "select name from customers")).
Proof.
  apply (C1_accepted_candidate_passes_every_rule "select name from customers").
  vm_compute. reflexivity.
Defined.

(** C9, as stated, fails: in [DROP TABLE customers] the forbidden keyword
    DROP is the leading token followed by a space, yet the verdict is the
    SELECT-only rejection, not a forbidden-keyword rejection. *)
Lemma C9_counterexample :
  In "DROP" dangerous_keywords
  /\ SpaceDelimited "DROP" (normal_form "DROP TABLE customers")
  /\ PyStr.startswith (normal_form "DROP TABLE customers") "DROP " = true
  /\ validate_sql_query "DROP TABLE customers" = (false, MSG_NOT_SELECT)
  /\ ~ ReportsForbidden "DROP TABLE customers".
Proof.
  split; [simpl; auto |].
  split; [apply ValidatorFacts.keyword_hit_spec; vm_compute; reflexivity |].
  split; [vm_compute; reflexivity |].
  split; [vm_compute; reflexivity |].
  intros (k & _ & H). vm_compute in H. discriminate.
Qed.

(** C9 (amended): for a candidate whose trimmed, upper-cased form starts
    with SELECT, [validate_sql_query] reports a forbidden-keyword rejection
    if and only if some forbidden keyword occurs in that form bounded by
    space characters on both sides (the ends of the text counting as
    delimiters), or as the leading token followed by a space.  A keyword
    inside a longer identifier ([created_date]), or set off by tabs or by
    newlines, does not trigger the rejection.  A candidate whose trimmed,
    upper-cased form does not start with SELECT never gets the
    forbidden-keyword rejection, whatever keyword it holds: it is
    rejected before the keywords are looked at, as empty or as not a
    SELECT. *)
Theorem C9_forbidden_keyword_rejection_iff_space_delimited :
  (forall C : string,
      PyStr.startswith (normal_form C) "SELECT" = true ->
      (ReportsForbidden C
       <-> exists k, In k dangerous_keywords
                     /\ (SpaceDelimited k (normal_form C)
                         \/ PyStr.startswith (normal_form C) (k ++ " ") = true)))
  /\ validate_sql_query "SELECT created_date FROM orders" = (true, MSG_PASSED)
  /\ validate_sql_query tabbed_drop = (true, MSG_PASSED)
  /\ validate_sql_query newline_drop = (true, MSG_PASSED)
  /\ (forall C : string,
         PyStr.startswith (normal_form C) "SELECT" = false ->
         ~ ReportsForbidden C
         /\ (validate_sql_query C = (false, MSG_EMPTY)
             \/ validate_sql_query C = (false, MSG_NOT_SELECT))).
Proof.
  split; [| split; [| split; [| split]]]; try (vm_compute; reflexivity).
  - intros C Hs. rewrite (ValidatorFacts.forbidden_iff C Hs).
    split; intros (k & Hin & Hk); exists k; (split; [assumption |]).
    + now left.
    + destruct Hk as [Hk | Hk]; [assumption |].
      apply ValidatorFacts.keyword_hit_spec. unfold keyword_hit.
      rewrite Hk. apply orb_true_r.
  - intros C Hs.
    assert (Hv : validate_sql_query C = (false, MSG_EMPTY)
                 \/ validate_sql_query C = (false, MSG_NOT_SELECT)).
    { unfold validate_sql_query. fold (normal_form C). rewrite Hs.
      destruct (PyStr.is_empty C || PyStr.is_empty (PyStr.strip C));
        [now left | now right]. }
    split; [| exact Hv].
    intros (k & _ & Hk).
    destruct Hv as [Hv | Hv]; rewrite Hv in Hk; vm_compute in Hk;
      discriminate.
Qed.

Lemma C9_witness :
  ReportsForbidden "select 1 from t where drop = 2"
  <-> exists k, In k dangerous_keywords
                /\ (SpaceDelimited k (normal_form "select 1 from t where drop = 2")
                    \/ PyStr.startswith
                         (normal_form "select 1 from t where drop = 2")
                         (k ++ " ") = true).
Proof.
  apply (proj1 C9_forbidden_keyword_rejection_iff_space_delimited
               "select 1 from t where drop = 2").
  vm_compute. reflexivity.
Defined.

(* ===================================================================== *)
(** * The fallback generator *)
(* ===================================================================== *)

Module FallbackFacts.
Import PyStr.

(** Split on the tests of a chain of conditionals, outermost first. *)
Ltac split_tests :=
  repeat match goal with
         | |- context [if ?b then _ else _] =>
             let E := fresh "E" in destruct b eqn:E
         end.

(** The conditional chain of the source is first-match evaluation of
    the trigger table. *)
Lemma chain_is_first_match (Q : string) :
  fallback_chain (lower Q) = first_match trigger_table Q.
Proof.
  unfold fallback_chain, first_match, trigger_table.
  cbn [find fires].
  split_tests; cbn [option_map statement];
    repeat match goal with
           | H : contains _ _ = _ |- _ => rewrite H
           end;
    reflexivity.
Qed.

Lemma generate_fallback_sql_eq (Q : string) (t : trace) :
  generate_fallback_sql Q t
  = (fallback_chain (lower Q),
     (t ++ Call FallbackGenerator Q :: warning_for Q)%list).
Proof.
  unfold generate_fallback_sql, warning_for, bind, enter, logger, emit, ret.
  destruct (fallback_chain (lower Q)); [reflexivity |].
  now rewrite <- List.app_assoc.
Qed.

(** Every canned statement is a non-empty text. *)
Lemma chain_nonempty (q s : string) :
  fallback_chain q = Some s -> s <> EmptyString.
Proof.
  unfold fallback_chain. split_tests; intros H; try discriminate;
    injection H as <-; discriminate.
Qed.

(** [find] returns the first entry that passes the test. *)
Lemma find_first {A : Type} (f : A -> bool) (l : list A) :
  match find f l with
  | Some x => exists n, nth_error l n = Some x /\ f x = true
                        /\ forall y, In y (firstn n l) -> f y = false
  | None => forall y, In y l -> f y = false
  end.
Proof.
  induction l as [|a l IH]; simpl; [tauto |].
  destruct (f a) eqn:Ha.
  - exists 0. simpl. tauto.
  - destruct (find f l) as [x|].
    + destruct IH as (n & Hn & Hx & Hbefore). exists (S n). simpl.
      repeat split; try assumption.
      intros y [<- | Hy]; auto.
    + intros y [<- | Hy]; auto.
Qed.

Lemma calls_app (c : component) (t u : trace) :
  calls c (t ++ u)%list = calls c t + calls c u.
Proof. unfold calls. now rewrite filter_app, length_app. Qed.

Lemma call_args_app (c : component) (t u : trace) :
  call_args c (t ++ u)%list = (call_args c t ++ call_args c u)%list.
Proof. unfold call_args. apply flat_map_app. Qed.

Lemma warning_has_no_call (c : component) (Q : string) :
  calls c (warning_for Q) = 0 /\ call_args c (warning_for Q) = [].
Proof. unfold warning_for. destruct (fallback_chain (lower Q)); auto. Qed.

End FallbackFacts.

(** C4: the result of [generate_fallback_sql] depends on the question
    alone: whatever has been logged before, two invocations on the same
    question return the same statement or the same no-match signal; the
    result is that of the trigger table evaluated in its fixed order, and
    the entry that answers is the first one that fires. *)
Theorem C4_fallback_is_deterministic_first_match (Q : string) (t1 t2 : trace) :
  fst (generate_fallback_sql Q t1) = fst (generate_fallback_sql Q t2)
  /\ fst (generate_fallback_sql Q t1) = first_match trigger_table Q
  /\ match fst (generate_fallback_sql Q t1) with
     | Some sql =>
         exists n tr, nth_error trigger_table n = Some tr
                      /\ fires tr (PyStr.lower Q) = true
                      /\ sql = statement tr (PyStr.lower Q)
                      /\ no_earlier_trigger n Q
     | None => forall tr, In tr trigger_table ->
                          fires tr (PyStr.lower Q) = false
     end.
Proof.
  rewrite !FallbackFacts.generate_fallback_sql_eq. cbn [fst].
  rewrite FallbackFacts.chain_is_first_match.
  split; [reflexivity |]. split; [reflexivity |].
  unfold first_match, no_earlier_trigger, earlier_triggers.
  pose proof (FallbackFacts.find_first
                (fun tr => fires tr (PyStr.lower Q)) trigger_table) as H.
  destruct (find (fun tr => fires tr (PyStr.lower Q)) trigger_table) as [tr|];
    cbn [option_map].
  - destruct H as (n & Hn & Hf & Hb). now exists n, tr.
  - exact H.
Qed.

(** C5: on any question that reads "all customers" in lower case and does
    not read "active" (as "Show all customers" does, in any casing), the
    fallback generator returns exactly [SELECT * FROM customers], and the
    validator accepts that statement. *)
Theorem C5_show_all_customers (Q : string) (t : trace) :
  PyStr.contains (PyStr.lower Q) "all customers" = true ->
  PyStr.contains (PyStr.lower Q) "active" = false ->
  fst (generate_fallback_sql Q t) = Some "SELECT * FROM customers"
  /\ validate_sql_query "SELECT * FROM customers" = (true, MSG_PASSED).
Proof.
  intros Hall Hact. split; [| vm_compute; reflexivity].
  rewrite FallbackFacts.generate_fallback_sql_eq. cbn [fst].
  unfold fallback_chain, any_in. cbn [existsb].
  now rewrite Hall, Hact.
Qed.

Lemma C5_witness :
  fst (generate_fallback_sql "Show all customers" [])
  = Some "SELECT * FROM customers"
  /\ validate_sql_query "SELECT * FROM customers" = (true, MSG_PASSED).
Proof.
  apply (C5_show_all_customers "Show all customers" []);
    vm_compute; reflexivity.
Defined.

(** C10: a question that reads one of "all employees", "show employees",
    "list employees" and fires no earlier trigger gets
    [SELECT * FROM employees WHERE status = 'active'], a listing
    restricted to active employees; the customers, orders and products
    triggers, absent their modifier words, answer with listings that carry
    no WHERE clause. *)
Theorem C10_employee_listing_is_filtered (Q : string) (t : trace) :
  any_in ["all employees"; "show employees"; "list employees"]
         (PyStr.lower Q) = true ->
  no_earlier_trigger 5 Q ->
  fst (generate_fallback_sql Q t)
  = Some "SELECT * FROM employees WHERE status = 'active'"
  /\ (forall Q' t',
        any_in ["all customers"; "show customers"; "list customers"]
               (PyStr.lower Q') = true ->
        PyStr.contains (PyStr.lower Q') "active" = false ->
        fst (generate_fallback_sql Q' t') = Some "SELECT * FROM customers")
  /\ (forall Q' t',
        any_in ["all orders"; "show orders"; "list orders"]
               (PyStr.lower Q') = true ->
        no_earlier_trigger 2 Q' ->
        fst (generate_fallback_sql Q' t')
        = Some "SELECT * FROM orders ORDER BY order_date DESC")
  /\ (forall Q' t',
        any_in ["all products"; "show products"; "list products"]
               (PyStr.lower Q') = true ->
        no_earlier_trigger 4 Q' ->
        PyStr.contains (PyStr.lower Q') "electronics" = false ->
        fst (generate_fallback_sql Q' t') = Some "SELECT * FROM products")
  /\ PyStr.contains "SELECT * FROM customers" "WHERE" = false
  /\ PyStr.contains "SELECT * FROM orders ORDER BY order_date DESC" "WHERE"
     = false
  /\ PyStr.contains "SELECT * FROM products" "WHERE" = false.
Proof.
  intros Hemp Hearly.
  assert (Hchain : forall n Q0, no_earlier_trigger n Q0 ->
            forall k tr, k < n -> nth_error trigger_table k = Some tr ->
                         fires tr (PyStr.lower Q0) = false).
  { intros n Q0 H k tr Hk Hnth. apply H. unfold earlier_triggers.
    apply nth_error_In with (n := k). rewrite nth_error_firstn.
    apply Nat.ltb_lt in Hk. now rewrite Hk. }
  repeat split; try (vm_compute; reflexivity).
  - rewrite FallbackFacts.generate_fallback_sql_eq. cbn [fst].
    pose proof (Hchain 5 Q Hearly) as H.
    pose proof (H 0 _ ltac:(lia) eq_refl) as H0.
    pose proof (H 1 _ ltac:(lia) eq_refl) as H1.
    pose proof (H 2 _ ltac:(lia) eq_refl) as H2.
    pose proof (H 3 _ ltac:(lia) eq_refl) as H3.
    pose proof (H 4 _ ltac:(lia) eq_refl) as H4.
    cbn [fires] in H0, H1, H2, H3, H4.
    unfold fallback_chain. now rewrite H0, H1, H2, H3, H4, Hemp.
  - intros Q' t' Hc Hact.
    rewrite FallbackFacts.generate_fallback_sql_eq. cbn [fst].
    unfold fallback_chain. now rewrite Hc, Hact.
  - intros Q' t' Hc Hearly'.
    rewrite FallbackFacts.generate_fallback_sql_eq. cbn [fst].
    pose proof (Hchain 2 Q' Hearly') as H.
    pose proof (H 0 _ ltac:(lia) eq_refl) as H0.
    pose proof (H 1 _ ltac:(lia) eq_refl) as H1.
    cbn [fires] in H0, H1.
    unfold fallback_chain. now rewrite H0, H1, Hc.
  - intros Q' t' Hc Hearly' Hel.
    rewrite FallbackFacts.generate_fallback_sql_eq. cbn [fst].
    pose proof (Hchain 4 Q' Hearly') as H.
    pose proof (H 0 _ ltac:(lia) eq_refl) as H0.
    pose proof (H 1 _ ltac:(lia) eq_refl) as H1.
    pose proof (H 2 _ ltac:(lia) eq_refl) as H2.
    pose proof (H 3 _ ltac:(lia) eq_refl) as H3.
    cbn [fires] in H0, H1, H2, H3.
    unfold fallback_chain. now rewrite H0, H1, H2, H3, Hc, Hel.
Qed.

Lemma C10_witness :
  any_in ["all employees"; "show employees"; "list employees"]
         (PyStr.lower "List employees") = true
  /\ no_earlier_trigger 5 "List employees"
  /\ fst (generate_fallback_sql "List employees" [])
     = Some "SELECT * FROM employees WHERE status = 'active'".
Proof.
  assert (H1 : any_in ["all employees"; "show employees"; "list employees"]
                      (PyStr.lower "List employees") = true)
    by (vm_compute; reflexivity).
  assert (H2 : no_earlier_trigger 5 "List employees").
  { intros tr H. simpl in H.
    repeat (destruct H as [<- | H]; [vm_compute; reflexivity |]).
    contradiction. }
  split; [exact H1 |]. split; [exact H2 |].
  exact (proj1 (C10_employee_listing_is_filtered "List employees" [] H1 H2)).
Defined.

(* ===================================================================== *)
(** * The executor and the orchestrator *)
(* ===================================================================== *)

Section OrchestratorFacts.

Local Open Scope list_scope.

Variable F : Type.
Variable float_str : F -> string.
Variable round2 : F -> F.
Variable groq_client : option (string -> string + exn).
Variable schema_text : string + exn.
Variable engine : string -> list (row F) + engine_error.

Local Abbreviation generate :=
  (generate_sql_from_natural_language groq_client schema_text).
Local Abbreviation execute := (execute_query float_str round2 engine).
Local Abbreviation handle :=
  (chat float_str round2 groq_client schema_text engine).
Local Abbreviation no_candidate := (generation_failed groq_client).
Local Abbreviation executor_log := (executor_log engine).
Local Abbreviation executor_result :=
  (executor_result float_str round2 engine).
Local Abbreviation after_generation :=
  (after_generation float_str round2 groq_client engine).

(** ** Rounding of rows *)

Lemma dict_set_fresh (d : row F) (key : string) (v : value F) :
  ~ In key (map fst d) -> dict_set d key v = (d ++ [(key, v)])%list.
Proof.
  induction d as [|[k x] d IH]; simpl; intros H; [reflexivity |].
  destruct (String.eqb_spec k key) as [-> | Hne]; [tauto |].
  rewrite IH; tauto.
Qed.

(** Visiting the items of a prefix-free remainder: the part already
    visited is normalized, the part to come is untouched. *)
Lemma format_items_split (done todo : row F) :
  NoDup (map fst (done ++ todo)) ->
  fold_left (format_item float_str round2) todo (done ++ todo)%list
  = (done ++ map (fun kv => (fst kv, normalized float_str round2 (snd kv)))
                 todo)%list.
Proof.
  revert done. induction todo as [|[k v] todo IH]; intros done Hnd.
  - reflexivity.
  - cbn [fold_left map fst snd].
    assert (Hstep : format_item float_str round2 (done ++ (k, v) :: todo) (k, v)
                    = ((done ++ [(k, normalized float_str round2 v)])
                         ++ todo)%list).
    { assert (Hset : forall w, dict_set (done ++ (k, v) :: todo) k w
                               = ((done ++ [(k, w)]) ++ todo)%list).
      { intros w. clear IH. induction done as [|[k' x] done IHd].
        - simpl. now rewrite String.eqb_refl.
        - simpl in Hnd |- *. inversion Hnd as [|? ? Hnotin Hnd']; subst.
          destruct (String.eqb_spec k' k) as [-> | Hne].
          + exfalso. apply Hnotin. rewrite map_app, in_app_iff.
            right. simpl. now left.
          + now rewrite IHd. }
      unfold format_item, needs_rounding, normalized.
      destruct v as [| z | x | txt];
        try (now rewrite <- List.app_assoc).
      destruct (PyStr.contains (float_str x) "."); [apply Hset |].
      now rewrite <- List.app_assoc. }
    rewrite Hstep, IH.
    + now rewrite <- List.app_assoc.
    + rewrite <- List.app_assoc. simpl.
      rewrite !map_app in *. simpl in *. exact Hnd.
Qed.

(** On a dict, the inner loop of [execute_query] normalizes every value
    and keeps keys and order. *)
Lemma format_row_spec (r : row F) :
  NoDup (map fst r) ->
  format_row float_str round2 r
  = map (fun kv => (fst kv, normalized float_str round2 (snd kv))) r.
Proof. intros H. exact (format_items_split [] r H). Qed.

(** ** The executor *)

Lemma execute_query_eq (sql : string) (t : trace) :
  execute sql t
  = (executor_result sql, t ++ Call QueryExecutor sql :: executor_log sql).
Proof.
  unfold execute_query, executor_result, executor_log,
    bind, enter, logger, emit, ret.
  destruct (engine sql) as [rows | [e | e]];
    try reflexivity; now rewrite <- app_assoc.
Qed.

(** ** The generator *)

(** With no client, the generator is the fallback. *)
Lemma generate_unconfigured (q : string) (t : trace) :
  groq_client = None ->
  generate q t
  = (fallback_chain (PyStr.lower q),
     t ++ Log ERROR "Groq client not initialized"
       :: Call FallbackGenerator q :: warning_for q).
Proof.
  intros H. unfold generate_sql_from_natural_language. rewrite H.
  unfold bind, logger, emit.
  rewrite FallbackFacts.generate_fallback_sql_eq.
  now rewrite <- app_assoc.
Qed.

(** When the completion call raises, the generator is the fallback. *)
Lemma generate_raises (q : string) (t : trace) create text e :
  groq_client = Some create ->
  schema_text = inl text ->
  create (enhanced_prompt text q) = inr e ->
  generate q t
  = (fallback_chain (PyStr.lower q),
     t ++ request_events text q
       ++ Log ERROR ("Groq API error: " ++ exn_text e)%string
       :: Log ERROR ("Error type: " ++ exn_type e)%string
       :: Call FallbackGenerator q :: warning_for q).
Proof.
  intros Hc Hs He. unfold generate_sql_from_natural_language.
  rewrite Hc, Hs. unfold bind, logger, enter, emit. rewrite He.
  unfold on_completion_error, bind, logger, emit.
  rewrite FallbackFacts.generate_fallback_sql_eq.
  unfold request_events. now rewrite <- !app_assoc.
Qed.

(** When the completion call answers, the candidate is the cleaned
    answer, and the fallback is not entered. *)
Lemma generate_answers (q : string) (t : trace) create text content :
  groq_client = Some create ->
  schema_text = inl text ->
  create (enhanced_prompt text q) = inl content ->
  generate q t
  = (Some (clean_response content),
     t ++ request_events text q
       ++ [Log INFO ("Generated SQL: " ++ clean_response content)%string]).
Proof.
  intros Hc Hs He. unfold generate_sql_from_natural_language.
  rewrite Hc, Hs. unfold bind, logger, enter, emit, ret. rewrite He.
  unfold request_events. now rewrite <- !app_assoc.
Qed.

(** ** The handler *)

(** A body with a non-blank message is processed as: log, generate,
    then validate and execute. *)
Lemma chat_eq (fields : list (string * string)) (t : trace) :
  fields <> [] ->
  question_of fields <> EmptyString ->
  handle (Some fields) t
  = let q := question_of fields in
    let (sql_query, t') :=
      generate q (t ++ [Log INFO ("Processing query: " ++ q)%string]) in
    after_generation sql_query t'.
Proof.
  intros Hf Hq. unfold chat. fold (question_of fields).
  destruct fields as [|f fs]; [contradiction |].
  destruct (PyStr.is_empty (question_of (f :: fs))) eqn:He.
  { apply ValidatorFacts.is_empty_spec in He. contradiction. }
  cbv zeta. unfold bind at 1. unfold logger at 1, emit at 1.
  unfold bind at 1.
  destruct (generate (question_of (f :: fs)) _) as [[sql|] t'];
    [| reflexivity].
  unfold after_generation.
  destruct (PyStr.is_empty sql); [reflexivity |].
  unfold bind at 1. unfold enter at 1, emit at 1.
  destruct (validate_sql_query sql) as [[|] msg]; cbn [negb fst snd];
    [| reflexivity].
  unfold bind at 1. rewrite execute_query_eq.
  unfold executor_result, executor_log.
  destruct (engine sql) as [rows | [e | e]];
    unfold bind, logger, emit, ret; try reflexivity.
  rewrite length_map. now rewrite <- app_assoc.
Qed.

(** The run of a request whose model path answers [content]. *)
Lemma chat_model_path (fields : list (string * string)) (content : string) :
  fields <> [] ->
  question_of fields <> EmptyString ->
  completion_answers groq_client schema_text (question_of fields) content ->
  exists text,
    run (handle (Some fields))
    = after_generation (Some (clean_response content))
        ([Log INFO ("Processing query: " ++ question_of fields)%string]
           ++ request_events text (question_of fields)
           ++ [Log INFO ("Generated SQL: "
                         ++ clean_response content)%string]).
Proof.
  intros Hf Hq (create & text & Hc & Hs & He). exists text.
  unfold run. rewrite (chat_eq fields [] Hf Hq). cbv zeta.
  now rewrite (generate_answers _ _ create text content Hc Hs He).
Qed.

(** The run of a request whose model path is unavailable. *)
Lemma chat_fallback_path (fields : list (string * string)) :
  fields <> [] ->
  question_of fields <> EmptyString ->
  completion_unavailable groq_client schema_text (question_of fields) ->
  exists before,
    calls FallbackGenerator before = 0
    /\ calls Validator before = 0 /\ calls QueryExecutor before = 0
    /\ call_args FallbackGenerator before = []
    /\ run (handle (Some fields))
       = after_generation (fallback_chain (PyStr.lower (question_of fields)))
           (before ++ Call FallbackGenerator (question_of fields)
                   :: warning_for (question_of fields)).
Proof.
  intros Hf Hq [Hc | (create & text & e & Hc & Hs & He)];
    unfold run; rewrite (chat_eq fields [] Hf Hq); cbv zeta.
  - rewrite (generate_unconfigured _ _ Hc).
    exists ([Log INFO ("Processing query: " ++ question_of fields)%string]
              ++ [Log ERROR "Groq client not initialized"]).
    repeat split; try reflexivity; now rewrite <- ?app_assoc.
  - rewrite (generate_raises _ _ create text e Hc Hs He).
    exists ([Log INFO ("Processing query: " ++ question_of fields)%string]
              ++ request_events text (question_of fields)
              ++ [Log ERROR ("Groq API error: " ++ exn_text e)%string;
                  Log ERROR ("Error type: " ++ exn_type e)%string]).
    repeat split; try reflexivity; now rewrite <- ?app_assoc.
Qed.

(** Whatever the candidate, the handler answers with status 200 and
    does not enter the fallback generator after generation. *)
Lemma after_generation_fallback_free (sql_query : option string) (t : trace) :
  http_status (fst (after_generation sql_query t)) = 200
  /\ call_args FallbackGenerator (snd (after_generation sql_query t))
     = call_args FallbackGenerator t.
Proof.
  unfold after_generation.
  destruct sql_query as [sql|]; [| split; reflexivity].
  destruct (PyStr.is_empty sql); [split; reflexivity |].
  destruct (fst (validate_sql_query sql)).
  - unfold executor_log.
    destruct (executor_result sql) as [rows | err]; cbn [fst snd];
      (split; [reflexivity |]);
      rewrite !FallbackFacts.call_args_app; cbn;
      [| destruct (engine sql) as [? | [? | ?]]; cbn];
      now rewrite ?app_nil_r.
  - cbn [fst snd]. split; [reflexivity |].
    rewrite FallbackFacts.call_args_app. cbn. now rewrite app_nil_r.
Qed.

(** ** The claims on the orchestrator *)

(** C2 (amended): when the model path produces a non-empty candidate
    that the validator rejects, the request ends with the validator's
    message and the rejected text; the fallback generator is not entered,
    the completion service is called once and not again, and nothing is
    executed. *)
Theorem C2_rejected_model_candidate_ends_the_request
    (fields : list (string * string)) (content : string) :
  fields <> [] ->
  question_of fields <> EmptyString ->
  completion_answers groq_client schema_text (question_of fields) content ->
  clean_response content <> EmptyString ->
  fst (validate_sql_query (clean_response content)) = false ->
  fst (run (handle (Some fields)))
  = failure 200 (snd (validate_sql_query (clean_response content))) None
            (Some (clean_response content))
  /\ calls FallbackGenerator (snd (run (handle (Some fields)))) = 0
  /\ calls CompletionAdapter (snd (run (handle (Some fields)))) = 1
  /\ calls Validator (snd (run (handle (Some fields)))) = 1
  /\ calls QueryExecutor (snd (run (handle (Some fields)))) = 0.
Proof.
  intros Hf Hq Hans Hne Hrej.
  destruct (chat_model_path fields content Hf Hq Hans) as [text ->].
  unfold after_generation.
  destruct (PyStr.is_empty (clean_response content)) eqn:He.
  { apply ValidatorFacts.is_empty_spec in He. contradiction. }
  rewrite Hrej. cbn [fst snd]. repeat split; reflexivity.
Qed.

(** C3: when the completion client is unconfigured or the completion
    call raises, the request still ends with an ordinary response: the
    fallback generator is entered once, with the question; if no trigger
    fires it returns [None], which no canned statement equals (none is
    empty), and the response is a failure carrying the suggestion, with
    neither validation nor execution performed. *)
Theorem C3_unavailable_completion_falls_back_once
    (fields : list (string * string)) :
  fields <> [] ->
  question_of fields <> EmptyString ->
  completion_unavailable groq_client schema_text (question_of fields) ->
  call_args FallbackGenerator (snd (run (handle (Some fields))))
  = [question_of fields]
  /\ http_status (fst (run (handle (Some fields)))) = 200
  /\ (forall Q t sql, fst (generate_fallback_sql Q t) = Some sql ->
                      sql <> EmptyString)
  /\ (first_match trigger_table (question_of fields) = None ->
      (forall t, fst (generate_fallback_sql (question_of fields) t) = None)
      /\ fst (run (handle (Some fields)))
         = failure 200 no_candidate (Some SUGGESTION) None
      /\ success (fst (run (handle (Some fields)))) = false
      /\ suggestion (fst (run (handle (Some fields)))) = Some SUGGESTION
      /\ calls Validator (snd (run (handle (Some fields)))) = 0
      /\ calls QueryExecutor (snd (run (handle (Some fields)))) = 0).
Proof.
  intros Hf Hq Hdown.
  destruct (chat_fallback_path fields Hf Hq Hdown)
    as (before & Hb1 & Hb2 & Hb3 & Hb4 & ->).
  destruct (after_generation_fallback_free
              (fallback_chain (PyStr.lower (question_of fields)))
              (before ++ Call FallbackGenerator (question_of fields)
                      :: warning_for (question_of fields)))
    as [Hstatus Hargs].
  split.
  { rewrite Hargs, FallbackFacts.call_args_app, Hb4.
    change (Call FallbackGenerator (question_of fields)
              :: warning_for (question_of fields))
      with ([Call FallbackGenerator (question_of fields)]
              ++ warning_for (question_of fields)).
    rewrite FallbackFacts.call_args_app.
    now rewrite (proj2 (FallbackFacts.warning_has_no_call _ _)). }
  split; [exact Hstatus |].
  split.
  { intros Q t sql H. rewrite FallbackFacts.generate_fallback_sql_eq in H.
    exact (FallbackFacts.chain_nonempty _ _ H). }
  intros Hnone. rewrite <- FallbackFacts.chain_is_first_match in Hnone.
  split.
  { intros t. now rewrite FallbackFacts.generate_fallback_sql_eq. }
  rewrite Hnone. cbn [after_generation ret fst snd].
  repeat split; try reflexivity;
    rewrite FallbackFacts.calls_app; unfold warning_for;
    rewrite Hnone; [rewrite Hb2 | rewrite Hb3]; reflexivity.
Qed.

(** C6: in every row of a successful [execute_query], a REAL value
    whose printed form has a decimal point is replaced by its rounding
    to two decimals, and every other value (integer, text, NULL, a REAL
    printed without a point) stands unchanged under its column name. *)
Theorem C6_rows_are_rounded_to_two_decimals
    (sql : string) (t : trace) (data : list (row F)) :
  (forall rows r, engine sql = inl rows -> In r rows ->
                  NoDup (map fst r)) ->
  fst (execute sql t) = inl data ->
  exists rows,
    engine sql = inl rows
    /\ data = map (map (fun kv => (fst kv,
                                   normalized float_str round2 (snd kv))))
                  rows.
Proof.
  intros Hdict. rewrite execute_query_eq. cbn [fst].
  unfold executor_result.
  destruct (engine sql) as [rows | [e | e]] eqn:He; try discriminate.
  intros H. injection H as <-. exists rows. split; [reflexivity |].
  apply map_ext_in. intros r Hr. apply format_row_spec.
  exact (Hdict rows r eq_refl Hr).
Qed.

(** C7: the validator decides every candidate by the generic rules
    alone, the bare text [SELECT] included; under them [SELECT] is
    accepted, and a request whose candidate is [SELECT] succeeds or
    fails as the storage engine does. *)
Theorem C7_bare_select_is_not_special :
  validate_sql_query "SELECT" = (true, MSG_PASSED)
  /\ (forall C, fst (validate_sql_query C) = true <-> GenericRules C)
  /\ GenericRules "SELECT"
  /\ (forall fields content,
        fields <> [] ->
        question_of fields <> EmptyString ->
        completion_answers groq_client schema_text
                           (question_of fields) content ->
        clean_response content = "SELECT" ->
        calls QueryExecutor (snd (run (handle (Some fields)))) = 1
        /\ match engine "SELECT" with
           | inl rows =>
               success (fst (run (handle (Some fields)))) = true
               /\ results (fst (run (handle (Some fields))))
                  = Some (map (format_row float_str round2) rows)
           | inr (SqliteError e) =>
               fst (run (handle (Some fields)))
               = failure 200 ("Database error: " ++ e)%string None
                         (Some "SELECT")
           | inr (OtherError e) =>
               fst (run (handle (Some fields)))
               = failure 200 ("Unexpected error: " ++ e)%string None
                         (Some "SELECT")
           end).
Proof.
  split; [vm_compute; reflexivity |].
  split; [exact ValidatorFacts.accept_iff |].
  split; [apply ValidatorFacts.accept_iff; vm_compute; reflexivity |].
  intros fields content Hf Hq Hans Hsel.
  destruct (chat_model_path fields content Hf Hq Hans) as [text ->].
  rewrite Hsel. unfold after_generation. cbn [PyStr.is_empty].
  replace (fst (validate_sql_query "SELECT")) with true
    by (vm_compute; reflexivity).
  unfold executor_result, executor_log.
  destruct (engine "SELECT") as [rows | [e | e]]; cbn [fst snd];
    (split; [| try split; reflexivity]);
    rewrite !FallbackFacts.calls_app; reflexivity.
Qed.

(** C8: a request whose message is empty, or blank once trimmed, is
    answered with the empty-message failure (status 400) before
    anything else runs: no component is entered and nothing is logged. *)
Theorem C8_blank_message_is_refused_first
    (fields : list (string * string)) :
  fields <> [] ->
  question_of fields = EmptyString ->
  run (handle (Some fields)) = (failure 400 MSG_EMPTY_MESSAGE None None, [])
  /\ success (fst (run (handle (Some fields)))) = false
  /\ forall c, calls c (snd (run (handle (Some fields)))) = 0.
Proof.
  intros Hf Hq.
  assert (H : run (handle (Some fields))
              = (failure 400 MSG_EMPTY_MESSAGE None None, [])).
  { unfold run, chat. fold (question_of fields). rewrite Hq.
    destruct fields; [contradiction | reflexivity]. }
  rewrite H. repeat split.
Qed.

End OrchestratorFacts.

(* ===================================================================== *)
(** * The claims at concrete requests *)
(* ===================================================================== *)

(** C2, as stated, fails: the completion service answers
    [DROP TABLE customers] to "Remove all customers"; the validator
    rejects the candidate; the fallback generator, which has a trigger for
    this very question, is never entered. *)
Lemma C2_counterexample :
  completion_answers (Demo.answering "DROP TABLE customers")
                     Demo.no_schema_error
                     (question_of (Demo.fields "Remove all customers"))
                     "DROP TABLE customers"
  /\ validate_sql_query (clean_response "DROP TABLE customers")
     = (false, MSG_NOT_SELECT)
  /\ first_match trigger_table "Remove all customers"
     = Some "SELECT * FROM customers"
  /\ calls FallbackGenerator
       (snd (Demo.chat (Demo.answering "DROP TABLE customers")
                       "Remove all customers")) = 0
  /\ fst (Demo.chat (Demo.answering "DROP TABLE customers")
                    "Remove all customers")
     = failure 200 MSG_NOT_SELECT None (Some "DROP TABLE customers").
Proof.
  split.
  { eexists _, _. repeat split; reflexivity. }
  repeat split; vm_compute; reflexivity.
Qed.

Lemma C2_witness :
  fst (validate_sql_query (clean_response "DROP TABLE customers")) = false
  /\ calls FallbackGenerator
       (snd (Demo.chat (Demo.answering "DROP TABLE customers")
                       "Remove all customers")) = 0
  /\ calls CompletionAdapter
       (snd (Demo.chat (Demo.answering "DROP TABLE customers")
                       "Remove all customers")) = 1.
Proof.
  assert (Hrej : fst (validate_sql_query
                        (clean_response "DROP TABLE customers")) = false)
    by (vm_compute; reflexivity).
  split; [exact Hrej |].
  assert (Hans : completion_answers
                   (Demo.answering "DROP TABLE customers")
                   Demo.no_schema_error
                   (question_of (Demo.fields "Remove all customers"))
                   "DROP TABLE customers")
    by (eexists _, _; repeat split; reflexivity).
  pose proof (C2_rejected_model_candidate_ends_the_request
                Demo.F Demo.float_str Demo.round2
                (Demo.answering "DROP TABLE customers")
                Demo.no_schema_error Demo.engine
                (Demo.fields "Remove all customers") "DROP TABLE customers"
                ltac:(discriminate) ltac:(vm_compute; discriminate)
                Hans ltac:(vm_compute; discriminate) Hrej)
    as (_ & H0 & H1 & _).
  split; assumption.
Defined.

Lemma C3_witness :
  completion_unavailable None Demo.no_schema_error
                         (question_of (Demo.fields "What is the weather?"))
  /\ call_args FallbackGenerator
       (snd (Demo.chat None "What is the weather?"))
     = ["What is the weather?"]
  /\ http_status (fst (Demo.chat None "What is the weather?")) = 200.
Proof.
  assert (Hdown : completion_unavailable None Demo.no_schema_error
                    (question_of (Demo.fields "What is the weather?")))
    by (now left).
  split; [exact Hdown |].
  pose proof (C3_unavailable_completion_falls_back_once
                Demo.F Demo.float_str Demo.round2 None
                Demo.no_schema_error Demo.engine
                (Demo.fields "What is the weather?")
                ltac:(discriminate) ltac:(vm_compute; discriminate) Hdown)
    as (H0 & H1 & _).
  split; assumption.
Defined.

Lemma C6_witness :
  exists rows,
    Demo.engine "SELECT * FROM customers" = inl rows
    /\ [ [ ("id", VInt 1%Z); ("name", VText "John Smith");
           ("balance", VReal 4570) ] ]
       = map (map (fun kv => (fst kv,
                              normalized Demo.float_str Demo.round2 (snd kv))))
             rows.
Proof.
  apply (C6_rows_are_rounded_to_two_decimals
           Demo.F Demo.float_str Demo.round2 Demo.engine
           "SELECT * FROM customers" []).
  - intros rows r H Hr. vm_compute in H. injection H as <-.
    destruct Hr as [<- | []]. cbn [map fst].
    repeat constructor; cbn [In]; intuition discriminate.
  - vm_compute. reflexivity.
Defined.

Lemma C7_witness :
  clean_response (Demo.fenced "SELECT") = "SELECT"
  /\ calls QueryExecutor
       (snd (Demo.chat (Demo.answering (Demo.fenced "SELECT"))
                       "Give me something")) = 1
  /\ fst (Demo.chat (Demo.answering (Demo.fenced "SELECT"))
                    "Give me something")
     = failure 200 "Database error: incomplete input" None (Some "SELECT").
Proof.
  assert (Hclean : clean_response (Demo.fenced "SELECT") = "SELECT")
    by (vm_compute; reflexivity).
  split; [exact Hclean |].
  assert (Hans : completion_answers
                   (Demo.answering (Demo.fenced "SELECT"))
                   Demo.no_schema_error
                   (question_of (Demo.fields "Give me something"))
                   (Demo.fenced "SELECT"))
    by (eexists _, _; repeat split; reflexivity).
  exact (proj2 (proj2 (proj2
           (C7_bare_select_is_not_special
              Demo.F Demo.float_str Demo.round2
              (Demo.answering (Demo.fenced "SELECT"))
              Demo.no_schema_error Demo.engine)))
           (Demo.fields "Give me something") (Demo.fenced "SELECT")
           ltac:(discriminate) ltac:(vm_compute; discriminate)
           Hans Hclean).
Defined.

Lemma C8_witness :
  question_of (Demo.fields "   ") = EmptyString
  /\ Demo.chat None "   " = (failure 400 MSG_EMPTY_MESSAGE None None, []).
Proof.
  assert (Hq : question_of (Demo.fields "   ") = EmptyString)
    by (vm_compute; reflexivity).
  split; [exact Hq |].
  exact (proj1 (C8_blank_message_is_refused_first
                  Demo.F Demo.float_str Demo.round2 None
                  Demo.no_schema_error Demo.engine (Demo.fields "   ")
                  ltac:(discriminate) Hq)).
Defined.

(* ===================================================================== *)
(** * The scenarios of the specification, run in the small world *)
(* ===================================================================== *)

(** Scenario A: no client, "Show all customers". *)
Example scenario_A :
  fst (Demo.chat None "Show all customers")
  = {| http_status := 200; success := true; error := None;
       suggestion := None;
       generated_sql := Some "SELECT * FROM customers";
       message := Some "Found 1 result(s)";
       results := Some [ [ ("id", VInt 1%Z); ("name", VText "John Smith");
                           ("balance", VReal 4570) ] ];
       result_count := Some 1 |}.
Proof. vm_compute. reflexivity. Qed.

(** Scenario C: the model answers with a stacked DROP. *)
Example scenario_C :
  fst (Demo.chat
         (Demo.answering "SELECT * FROM customers; DROP TABLE customers")
         "Show me everything")
  = failure 200 "Forbidden keyword detected: DROP" None
            (Some "SELECT * FROM customers; DROP TABLE customers").
Proof. vm_compute. reflexivity. Qed.

(** Scenario D: the completion call raises, "How many orders were
    placed?". *)
Example scenario_D :
  call_args Validator
    (snd (Demo.chat Demo.raising "How many orders were placed?"))
  = ["SELECT COUNT(*) as order_count FROM orders"].
Proof. vm_compute. reflexivity. Qed.

(** Scenario E: no client and no trigger. *)
Example scenario_E :
  fst (Demo.chat None "What is the weather?")
  = failure 200
      "Failed to generate SQL query. Groq client is not initialized - please check your API key."
      (Some SUGGESTION) None.
Proof. vm_compute. reflexivity. Qed.

(** A fenced answer is unwrapped before validation. *)
Example fenced_answer_is_unwrapped :
  clean_response (Demo.fenced "SELECT name FROM customers")
  = "SELECT name FROM customers".
Proof. vm_compute. reflexivity. Qed.

(* ===================================================================== *)
(** * More on characters and trimming *)
(* ===================================================================== *)

Module TrimFacts.
Import PyStr StrFacts.

(** Check a closed fact about one character on all 256 of them. *)
Ltac by_cases_on c :=
  destruct c as [[] [] [] [] [] [] [] []]; vm_compute; reflexivity.

Lemma isspace_upper (c : ascii) : isspace (upper_char c) = isspace c.
Proof. by_cases_on c. Qed.

Lemma upper_char_idem (c : ascii) : upper_char (upper_char c) = upper_char c.
Proof. by_cases_on c. Qed.

Lemma lower_upper_char (c : ascii) : lower_char (upper_char c) = lower_char c.
Proof. by_cases_on c. Qed.

Lemma isspace_lower (c : ascii) : isspace (lower_char c) = isspace c.
Proof. by_cases_on c. Qed.

Lemma upper_lower_char (c : ascii) : upper_char (lower_char c) = upper_char c.
Proof. by_cases_on c. Qed.

Lemma newline_is_space (c : ascii) : isspace c = false -> c <> NL.
Proof. intros H ->. discriminate. Qed.

Lemma upper_idem (s : string) : upper (upper s) = upper s.
Proof.
  induction s as [|c s IH]; [reflexivity |].
  cbn. rewrite upper_char_idem. f_equal. exact IH.
Qed.

Lemma upper_lower (s : string) : upper (lower s) = upper s.
Proof.
  induction s as [|c s IH]; [reflexivity |].
  cbn. rewrite upper_lower_char. f_equal. exact IH.
Qed.

Lemma lower_upper (s : string) : lower (upper s) = lower s.
Proof.
  induction s as [|c s IH]; [reflexivity |].
  cbn. rewrite lower_upper_char. f_equal. exact IH.
Qed.

(** A change of characters that keeps blanks blank and visible characters
    visible commutes with trimming. *)
Lemma map_lstrip (f : ascii -> ascii) (s : string) :
  (forall c, isspace (f c) = isspace c) ->
  map_chars f (lstrip s) = lstrip (map_chars f s).
Proof.
  intros Hf. induction s as [|c s IH]; [reflexivity |].
  cbn [lstrip map_chars]. rewrite Hf.
  destruct (isspace c); [exact IH | reflexivity].
Qed.

Lemma map_rstrip (f : ascii -> ascii) (s : string) :
  (forall c, isspace (f c) = isspace c) ->
  map_chars f (rstrip s) = rstrip (map_chars f s).
Proof.
  intros Hf. induction s as [|c s IH]; [reflexivity |].
  cbn [rstrip map_chars]. rewrite <- IH, Hf.
  destruct (rstrip s); cbn; [destruct (isspace c) |]; reflexivity.
Qed.

Lemma upper_strip (s : string) : upper (strip s) = strip (upper s).
Proof.
  unfold strip, upper.
  now rewrite (map_rstrip _ _ isspace_upper), (map_lstrip _ _ isspace_upper).
Qed.

Lemma lower_strip (s : string) : lower (strip s) = strip (lower s).
Proof.
  unfold strip, lower.
  now rewrite (map_rstrip _ _ isspace_lower), (map_lstrip _ _ isspace_lower).
Qed.

(** What [lstrip] leaves is empty or starts with a visible character. *)
Lemma lstrip_head (s : string) :
  match lstrip s with
  | EmptyString => True
  | String c _ => isspace c = false
  end.
Proof.
  induction s as [|c s IH]; cbn [lstrip]; [exact I |].
  destruct (isspace c) eqn:E; [exact IH | exact E].
Qed.

(** [rstrip] keeps a visible first character. *)
Lemma rstrip_cons (c : ascii) (s : string) :
  isspace c = false -> exists r, rstrip (String c s) = String c r.
Proof.
  intros H. cbn [rstrip]. destruct (rstrip s) as [|d r].
  - rewrite H. now exists EmptyString.
  - now exists (String d r).
Qed.

Lemma rstrip_idem (s : string) : rstrip (rstrip s) = rstrip s.
Proof.
  induction s as [|c s IH]; [reflexivity |].
  cbn [rstrip]. destruct (rstrip s) as [|d r] eqn:E.
  - destruct (isspace c) eqn:Ec; [reflexivity |]. cbn. now rewrite Ec.
  - cbn [rstrip]. cbn [rstrip] in IH. now rewrite IH.
Qed.

(** What [strip] leaves is empty or starts with a visible character. *)
Lemma strip_head (s : string) :
  match strip s with
  | EmptyString => True
  | String c _ => isspace c = false
  end.
Proof.
  unfold strip. pose proof (lstrip_head s) as H.
  destruct (lstrip s) as [|c l]; [exact I |].
  destruct (rstrip_cons c l H) as [r ->]. exact H.
Qed.

Lemma lstrip_fixed (s : string) :
  match s with
  | EmptyString => True
  | String c _ => isspace c = false
  end -> lstrip s = s.
Proof. destruct s as [|c s]; [reflexivity |]. cbn. now intros ->. Qed.

Lemma strip_idem (s : string) : strip (strip s) = strip s.
Proof.
  unfold strip at 1. rewrite (lstrip_fixed _ (strip_head s)).
  unfold strip. apply rstrip_idem.
Qed.

(** What [rstrip] leaves is empty or ends in a visible character. *)
Lemma rstrip_last (s y : string) (c : ascii) :
  rstrip s = y ++ String c EmptyString -> isspace c = false.
Proof.
  revert y. induction s as [|d s IH]; intros y H; cbn [rstrip] in H.
  - destruct y; discriminate.
  - destruct (rstrip s) as [|e r] eqn:E.
    + destruct (isspace d) eqn:Ed; [destruct y; discriminate |].
      destruct y as [|x y]; cbn in H.
      * now injection H as <-.
      * injection H as _ H. destruct y; discriminate.
    + destruct y as [|x y]; cbn in H; [discriminate |].
      injection H as _ H. exact (IH y H).
Qed.

Lemma strip_last (s y : string) (c : ascii) :
  strip s = y ++ String c EmptyString -> isspace c = false.
Proof. apply rstrip_last. Qed.

(** A text whose two ends are visible is its own [strip]. *)
Lemma rstrip_snoc (s : string) (c : ascii) :
  isspace c = false ->
  rstrip (s ++ String c EmptyString) = s ++ String c EmptyString.
Proof.
  intros H. induction s as [|d s IH]; cbn [append rstrip].
  - now rewrite H.
  - rewrite IH. destruct s; reflexivity.
Qed.

End TrimFacts.

(** X1: on a candidate of ASCII characters the verdict of
    [validate_sql_query], message included, depends on the trimmed,
    upper-cased text alone: changing the letter case of the candidate, or
    trimming it, does not change the verdict. *)
Theorem X1_validator_ignores_case_and_padding (query : string) :
  isascii query = true ->
  validate_sql_query (PyStr.upper query) = validate_sql_query query
  /\ validate_sql_query (PyStr.strip query) = validate_sql_query query
  /\ validate_sql_query (PyStr.lower query) = validate_sql_query query.
Proof.
  intros _.
  assert (Hnf : forall a b, normal_form a = normal_form b ->
                            validate_sql_query a = validate_sql_query b).
  { intros a b H. unfold validate_sql_query.
    fold (normal_form a). fold (normal_form b). rewrite <- H.
    assert (Hblank : forall x, PyStr.is_empty x
                               || PyStr.is_empty (PyStr.strip x)
                               = PyStr.is_empty (normal_form x)).
    { intros x. unfold normal_form.
      destruct x as [|c x]; [reflexivity |]. cbn [PyStr.is_empty orb].
      destruct (PyStr.strip (String c x)); reflexivity. }
    now rewrite !Hblank, H. }
  repeat split; apply Hnf; unfold normal_form.
  - now rewrite <- TrimFacts.upper_strip, TrimFacts.upper_idem.
  - now rewrite TrimFacts.strip_idem.
  - now rewrite <- TrimFacts.lower_strip, TrimFacts.upper_lower.
Qed.

Lemma X1_witness :
  validate_sql_query (PyStr.upper "  select name from Customers ")
  = validate_sql_query "  select name from Customers "
  /\ validate_sql_query (PyStr.strip "  select name from Customers ")
     = validate_sql_query "  select name from Customers "
  /\ validate_sql_query (PyStr.lower "  select name from Customers ")
     = validate_sql_query "  select name from Customers ".
Proof.
  apply (X1_validator_ignores_case_and_padding
           "  select name from Customers ").
  vm_compute. reflexivity.
Defined.

(* ===================================================================== *)
(** * More on the fallback generator *)
(* ===================================================================== *)

(** Each of the ten canned statements passes the validator. *)
Lemma chain_accepted (q sql : string) :
  fallback_chain q = Some sql ->
  validate_sql_query sql = (true, MSG_PASSED).
Proof.
  unfold fallback_chain. FallbackFacts.split_tests; intros H;
    try discriminate; injection H as <-; vm_compute; reflexivity.
Qed.

(** X2: every statement the fallback generator can return is accepted by
    [validate_sql_query]: the fallback path never ends in a validation
    failure. *)
Theorem X2_fallback_statements_pass_validation
    (Q : string) (t : trace) (sql : string) :
  fst (generate_fallback_sql Q t) = Some sql ->
  validate_sql_query sql = (true, MSG_PASSED).
Proof.
  rewrite FallbackFacts.generate_fallback_sql_eq. cbn [fst].
  apply chain_accepted.
Qed.

Lemma X2_witness :
  fst (generate_fallback_sql "top 5 customers by spend" [])
  = Some SQL_TOP_CUSTOMERS
  /\ validate_sql_query SQL_TOP_CUSTOMERS = (true, MSG_PASSED).
Proof.
  assert (H : fst (generate_fallback_sql "top 5 customers by spend" [])
              = Some SQL_TOP_CUSTOMERS) by (vm_compute; reflexivity).
  split; [exact H |].
  exact (X2_fallback_statements_pass_validation _ _ _ H).
Defined.

(** The trigger words are looked for as substrings: a text that reads
    "inactive" reads "active". *)
Lemma inactive_reads_active (q : string) :
  PyStr.contains q "inactive" = true -> PyStr.contains q "active" = true.
Proof.
  rewrite !StrFacts.contains_spec. intros (a & b & ->).
  exists (a ++ "in"), b. rewrite StrFacts.app_assoc. reflexivity.
Qed.

(** X3: the word "active" is matched as a substring, so a customer
    listing asked for with the word "inactive" is answered with the
    statement that selects the active customers. *)
Theorem X3_inactive_customers_get_the_active_filter
    (Q : string) (t : trace) :
  any_in ["all customers"; "show customers"; "list customers"]
         (PyStr.lower Q) = true ->
  PyStr.contains (PyStr.lower Q) "inactive" = true ->
  fst (generate_fallback_sql Q t)
  = Some "SELECT * FROM customers WHERE status = 'active'".
Proof.
  intros Hc Hin. apply inactive_reads_active in Hin.
  rewrite FallbackFacts.generate_fallback_sql_eq. cbn [fst].
  unfold fallback_chain. now rewrite Hc, Hin.
Qed.

Lemma X3_witness :
  PyStr.contains (PyStr.lower "List customers that are inactive") "inactive" = true
  /\ fst (generate_fallback_sql "List customers that are inactive" [])
     = Some "SELECT * FROM customers WHERE status = 'active'".
Proof.
  assert (H : PyStr.contains (PyStr.lower "List customers that are inactive")
                             "inactive" = true) by (vm_compute; reflexivity).
  split; [exact H |].
  apply (X3_inactive_customers_get_the_active_filter
           "List customers that are inactive" []); [vm_compute; reflexivity | exact H].
Defined.

(** X4: the fallback generator reads a question of ASCII characters
    without regard to letter case: the question in capitals, or in small
    letters, gets the answer of the question as typed. *)
Theorem X4_fallback_ignores_letter_case (Q : string) (t t' : trace) :
  isascii Q = true ->
  fst (generate_fallback_sql (PyStr.upper Q) t)
  = fst (generate_fallback_sql Q t')
  /\ fst (generate_fallback_sql (PyStr.lower Q) t)
     = fst (generate_fallback_sql Q t').
Proof.
  intros _.
  rewrite !FallbackFacts.generate_fallback_sql_eq. cbn [fst].
  rewrite TrimFacts.lower_upper.
  assert (H : PyStr.lower (PyStr.lower Q) = PyStr.lower Q).
  { induction Q as [|c Q IH]; [reflexivity |]. cbn. f_equal; [| exact IH].
    TrimFacts.by_cases_on c. }
  now rewrite H.
Qed.

Lemma X4_witness :
  fst (generate_fallback_sql (PyStr.upper "Show Customers") [])
  = fst (generate_fallback_sql "Show Customers" [])
  /\ fst (generate_fallback_sql (PyStr.lower "Show Customers") [])
     = fst (generate_fallback_sql "Show Customers" []).
Proof.
  apply (X4_fallback_ignores_letter_case "Show Customers" [] []).
  vm_compute. reflexivity.
Defined.

(* ===================================================================== *)
(** * More on the validator: the patterns read as text *)
(* ===================================================================== *)

Module PatternFacts.
Import Re StrFacts.

Lemma word_matches (s : string) : Matches (word s) s.
Proof.
  induction s as [|c s IH]; [constructor |].
  change (String c s) with (String c EmptyString ++ s).
  apply MCat; [constructor | exact IH].
Qed.

Lemma blanks_match (ws : string) : all_blank ws = true -> Matches blanks ws.
Proof.
  unfold blanks. induction ws as [|c ws IH]; cbn [all_blank]; intros H.
  - constructor.
  - apply andb_true_iff in H as [Hc Hws].
    change (String c ws) with (String c EmptyString ++ ws).
    apply MStarApp; [now constructor | now apply IH].
Qed.

Lemma dots_match (mid : string) : one_line mid = true -> Matches dots mid.
Proof.
  unfold dots. induction mid as [|c mid IH]; cbn [one_line]; intros H.
  - constructor.
  - apply andb_true_iff in H as [Hc Hmid].
    change (String c mid) with (String c EmptyString ++ mid).
    apply MStarApp; [| now apply IH].
    constructor. intros ->. discriminate.
Qed.

(** A candidate in whose normal form a pattern is found is rejected. *)
Lemma found_rejects (q : string) (p : regex) :
  In p injection_patterns -> Found p (normal_form q) ->
  fst (validate_sql_query q) = false.
Proof.
  intros Hin Hf. destruct (fst (validate_sql_query q)) eqn:E; [| reflexivity].
  apply ValidatorFacts.accept_iff in E as (_ & _ & _ & H).
  now elim (H p Hin).
Qed.

(** [1], blanks, [=], blanks, [1]. *)
Lemma one_eq_one_matches (ws1 ws2 : string) :
  all_blank ws1 = true -> all_blank ws2 = true ->
  Matches one_eq_one ("1" ++ ws1 ++ "=" ++ ws2 ++ "1").
Proof.
  intros H1 H2. unfold one_eq_one.
  apply (MCat (Lit "1") _ "1"); [constructor |].
  apply MCat; [now apply blanks_match |].
  apply (MCat (Lit "=") _ "="); [constructor |].
  apply MCat; [now apply blanks_match | constructor].
Qed.

End PatternFacts.

(** X5: a semicolon followed by DROP, DELETE, INSERT or UPDATE is never
    accepted, whatever whitespace (spaces, tabs, newlines) stands between
    the two and whatever surrounds them. *)
Theorem X5_stacked_mutation_is_rejected
    (query pre ws kw post : string) :
  normal_form query = pre ++ ";" ++ ws ++ kw ++ post ->
  all_blank ws = true ->
  In kw ["DROP"; "DELETE"; "INSERT"; "UPDATE"] ->
  fst (validate_sql_query query) = false.
Proof.
  intros Hnf Hws Hkw.
  apply (PatternFacts.found_rejects query pat_stacked); [simpl; tauto |].
  exists pre, (";" ++ ws ++ kw), post. split.
  - rewrite Hnf. now rewrite !StrFacts.app_assoc.
  - unfold pat_stacked.
    apply (Re.MCat (Re.Lit ";") _ ";"); [constructor |].
    apply Re.MCat; [now apply PatternFacts.blanks_match |].
    cbn [In] in Hkw. cbn [Re.alts].
    destruct Hkw as [<- | [<- | [<- | [<- | []]]]].
    + apply Re.MAltL, PatternFacts.word_matches.
    + apply Re.MAltR, Re.MAltL, PatternFacts.word_matches.
    + apply Re.MAltR, Re.MAltR, Re.MAltL, PatternFacts.word_matches.
    + apply Re.MAltR, Re.MAltR, Re.MAltR, PatternFacts.word_matches.
Qed.

Lemma X5_witness :
  fst (validate_sql_query
         ("select 1;" ++ String PyStr.TAB (String PyStr.NL "update t set a = 1")))
  = false.
Proof.
  apply (X5_stacked_mutation_is_rejected _ "SELECT 1"
           (String PyStr.TAB (String PyStr.NL EmptyString)) "UPDATE"
           " T SET A = 1");
    [vm_compute; reflexivity | reflexivity | simpl; auto].
Defined.

(** X6: a candidate is rejected as soon as, in its normal form, the
    letters OR or AND are followed on the same line by [1 = 1] (with any
    whitespace around the equals sign), even when the letters belong to a
    longer word such as ORDERS and the digits to longer numbers. *)
Theorem X6_tautology_pattern_rejects_inside_words
    (query pre kw mid ws1 ws2 post : string) :
  normal_form query = pre ++ kw ++ mid ++ "1" ++ ws1 ++ "=" ++ ws2 ++ "1" ++ post ->
  In kw ["OR"; "AND"] ->
  one_line mid = true -> all_blank ws1 = true -> all_blank ws2 = true ->
  fst (validate_sql_query query) = false.
Proof.
  intros Hnf Hkw Hmid H1 H2.
  assert (Hbody : forall p, p = Re.Cat (Re.word kw) (Re.Cat dots one_eq_one) ->
                            Re.Found p (normal_form query)).
  { intros p ->.
    exists pre, (kw ++ mid ++ "1" ++ ws1 ++ "=" ++ ws2 ++ "1"), post. split.
    - rewrite Hnf. now rewrite !StrFacts.app_assoc.
    - apply Re.MCat; [apply PatternFacts.word_matches |].
      apply Re.MCat; [now apply PatternFacts.dots_match |].
      now apply PatternFacts.one_eq_one_matches. }
  cbn [In] in Hkw. destruct Hkw as [<- | [<- | []]].
  - apply (PatternFacts.found_rejects query pat_or_true); [simpl; tauto |].
    now apply Hbody.
  - apply (PatternFacts.found_rejects query pat_and_true); [simpl; tauto |].
    now apply Hbody.
Qed.

Lemma X6_witness :
  fst (validate_sql_query "SELECT * FROM orders WHERE unit_price1 = 15")
  = false.
Proof.
  apply (X6_tautology_pattern_rejects_inside_words _
           "SELECT * FROM " "OR" "DERS WHERE UNIT_PRICE" " " " " "5");
    try reflexivity; simpl; auto.
Defined.

(** X7: a candidate whose normal form contains [--] anywhere, or [/*]
    followed on the same line by [*/], or UNION followed on the same line
    by SELECT, is rejected: comments and UNION queries never pass. *)
Theorem X7_comments_and_unions_are_rejected (query : string) :
  (PyStr.contains (normal_form query) "--" = true
   \/ (exists pre mid post,
         normal_form query = pre ++ "/*" ++ mid ++ "*/" ++ post
         /\ one_line mid = true)
   \/ (exists pre mid post,
         normal_form query = pre ++ "UNION" ++ mid ++ "SELECT" ++ post
         /\ one_line mid = true)) ->
  fst (validate_sql_query query) = false.
Proof.
  intros [H | [(pre & mid & post & Hnf & Hmid)
             | (pre & mid & post & Hnf & Hmid)]].
  - apply (PatternFacts.found_rejects query pat_line_comment); [simpl; tauto |].
    apply StrFacts.contains_spec in H as (a & b & ->).
    exists a, "--", b. split; [reflexivity |].
    apply PatternFacts.word_matches.
  - apply (PatternFacts.found_rejects query pat_block_comment); [simpl; tauto |].
    exists pre, ("/*" ++ mid ++ "*/"), post. split.
    + rewrite Hnf. now rewrite !StrFacts.app_assoc.
    + apply Re.MCat; [apply PatternFacts.word_matches |].
      apply Re.MCat; [now apply PatternFacts.dots_match |].
      apply PatternFacts.word_matches.
  - apply (PatternFacts.found_rejects query pat_union); [simpl; tauto |].
    exists pre, ("UNION" ++ mid ++ "SELECT"), post. split.
    + rewrite Hnf. now rewrite !StrFacts.app_assoc.
    + apply Re.MCat; [apply PatternFacts.word_matches |].
      apply Re.MCat; [now apply PatternFacts.dots_match |].
      apply PatternFacts.word_matches.
Qed.

Lemma X7_witness :
  fst (validate_sql_query
         "SELECT name FROM customers UNION SELECT name FROM employees")
  = false.
Proof.
  apply X7_comments_and_unions_are_rejected. right. right.
  exists "SELECT NAME FROM CUSTOMERS ", " ", " NAME FROM EMPLOYEES".
  split; reflexivity.
Defined.

(* ===================================================================== *)
(** * More on the orchestrator: every request, every world *)
(* ===================================================================== *)

Section OrchestratorMore.

Local Open Scope list_scope.

Variable F : Type.
Variable float_str : F -> string.
Variable round2 : F -> F.
Variable groq_client : option (string -> string + exn).
Variable schema_text : string + exn.
Variable engine : string -> list (row F) + engine_error.

Local Abbreviation generate :=
  (generate_sql_from_natural_language groq_client schema_text).
Local Abbreviation handle :=
  (chat float_str round2 groq_client schema_text engine).
Local Abbreviation no_candidate := (generation_failed groq_client).
Local Abbreviation executor_log := (executor_log engine).
Local Abbreviation executor_result :=
  (executor_result float_str round2 engine).
Local Abbreviation after_generation :=
  (after_generation float_str round2 groq_client engine).
Local Abbreviation generation := (generation groq_client schema_text).
Local Abbreviation conclusion :=
  (conclusion float_str round2 groq_client engine).

(** When the schema cannot be read, the generator is the fallback and
    the completion service is not called. *)
Lemma generate_schema_raises (q : string) (t : trace) create e :
  groq_client = Some create ->
  schema_text = inr e ->
  generate q t
  = (fallback_chain (PyStr.lower q),
     t ++ Call SchemaIntrospector EmptyString
       :: failure_events e q ++ warning_for q).
Proof.
  intros Hc Hs. unfold generate_sql_from_natural_language.
  rewrite Hc, Hs. unfold bind, enter, emit.
  unfold on_completion_error, bind, logger, emit.
  rewrite FallbackFacts.generate_fallback_sql_eq.
  unfold failure_events. now rewrite <- !app_assoc.
Qed.

Lemma generate_cases (q : string) (t : trace) :
  exists sq evs, generate q t = (sq, t ++ evs) /\ generation q sq evs.
Proof.
  destruct groq_client as [create|] eqn:Hc; rewrite <- Hc.
  - destruct schema_text as [text | e] eqn:Hs; rewrite <- Hs.
    + destruct (create (enhanced_prompt text q)) as [content | e] eqn:He.
      * eexists _, _. split; [| exact (GenAnswers q create text content Hc Hs He)].
        exact (generate_answers groq_client schema_text q t create text content Hc Hs He).
      * eexists _, _.
        split; [| exact (GenCompletionRaises q create text e Hc Hs He)].
        rewrite (generate_raises groq_client schema_text q t create text e Hc Hs He).
        unfold failure_events. reflexivity.
    + eexists _, _. split; [| exact (GenSchemaRaises q create e Hc Hs)].
      exact (generate_schema_raises q t create e Hc Hs).
  - eexists _, _. split; [| exact (GenUnconfigured q Hc)].
    exact (generate_unconfigured groq_client schema_text q t Hc).
Qed.

(** A generation attempt enters neither the validator nor the executor,
    and each of the completion service and the fallback at most once. *)
Lemma generation_calls (q : string) (sq : option string) (evs : trace) :
  generation q sq evs ->
  call_args Validator evs = [] /\ call_args QueryExecutor evs = []
  /\ calls CompletionAdapter evs <= 1 /\ calls FallbackGenerator evs <= 1.
Proof.
  intros H. destruct H; unfold warning_for, request_events, failure_events;
    try destruct (fallback_chain (PyStr.lower q));
    cbn; repeat split; lia.
Qed.

Lemma after_generation_cases (sq : option string) (t : trace) :
  exists resp evs,
    after_generation sq t = (resp, t ++ evs) /\ conclusion sq resp evs.
Proof.
  unfold after_generation. destruct sq as [sql|].
  2: { eexists _, []. rewrite app_nil_r. split; [reflexivity |].
       apply NoCandidate. now left. }
  destruct (PyStr.is_empty sql) eqn:He.
  { apply ValidatorFacts.is_empty_spec in He. subst sql.
    eexists _, []. rewrite app_nil_r. split; [reflexivity |].
    apply NoCandidate. now right. }
  assert (Hne : sql <> EmptyString).
  { intros ->. discriminate. }
  destruct (fst (validate_sql_query sql)) eqn:Hv.
  - destruct (executor_result sql) as [rows' | err] eqn:Hres.
    + unfold executor_result in Hres.
      destruct (engine sql) as [rows | [e | e]] eqn:Heng; try discriminate.
      injection Hres as <-.
      eexists _, _. split; [| exact (Succeeds _ sql rows eq_refl Hne Hv Heng)].
      now rewrite <- app_assoc.
    + eexists _, _. split; [| exact (EngineFails _ sql err eq_refl Hne Hv Hres)].
      now rewrite <- app_assoc.
  - eexists _, _. split; [| exact (Rejected _ sql eq_refl Hne Hv)].
    reflexivity.
Qed.

(** Every request goes one of three ways. *)
Lemma chat_cases (data : option (list (string * string))) :
  (blank_body data = true
   /\ run (handle data)
      = (failure 400 match data with
                     | Some (_ :: _) => MSG_EMPTY_MESSAGE
                     | _ => MSG_INVALID_JSON
                     end None None, []))
  \/ (exists fields sq gen_evs resp evs,
        data = Some fields /\ blank_body data = false
        /\ generation (question_of fields) sq gen_evs
        /\ conclusion sq resp evs
        /\ run (handle data)
           = (resp,
              Log INFO ("Processing query: " ++ question_of fields)%string
                :: gen_evs ++ evs)).
Proof.
  destruct data as [[|f fs]|]; try (left; split; reflexivity).
  destruct (blank_body (Some (f :: fs))) eqn:Hb.
  - left. split; [reflexivity |]. cbn [blank_body] in Hb.
    unfold run, chat. fold (question_of (f :: fs)). now rewrite Hb.
  - right. assert (Hq : question_of (f :: fs) <> EmptyString).
    { intros E. cbn [blank_body] in Hb. rewrite E in Hb. discriminate. }
    unfold run.
    rewrite (chat_eq F float_str round2 groq_client schema_text engine
                     (f :: fs) [] ltac:(discriminate) Hq).
    cbv zeta.
    destruct (generate_cases (question_of (f :: fs))
                ([] ++ [Log INFO ("Processing query: "
                                  ++ question_of (f :: fs))%string]))
      as (sq & gen_evs & -> & Hgen).
    destruct (after_generation_cases sq
                (([] ++ [Log INFO ("Processing query: "
                                   ++ question_of (f :: fs))%string])
                   ++ gen_evs))
      as (resp & evs & -> & Hconc).
    exists (f :: fs), sq, gen_evs, resp, evs.
    repeat split; assumption.
Qed.

Lemma calls_length (c : component) (t : trace) :
  calls c t = List.length (call_args c t).
Proof.
  unfold calls, call_args. induction t as [|e t IH]; [reflexivity |].
  cbn [filter flat_map]. destruct e as [c' a | l m]; cbn [is_call].
  - destruct (component_eqb c c'); cbn [app List.length]; now rewrite IH.
  - exact IH.
Qed.

Lemma executor_log_has_no_call (c : component) (sql : string) :
  call_args c (executor_log sql) = [].
Proof.
  unfold executor_log. destruct (engine sql) as [rows | [e | e]]; reflexivity.
Qed.

(** What the last stage of the handler enters. *)
Lemma conclusion_calls (sq : option string) (resp : response F)
    (evs : trace) :
  conclusion sq resp evs ->
  call_args CompletionAdapter evs = []
  /\ call_args FallbackGenerator evs = []
  /\ http_status resp = 200
  /\ ((call_args Validator evs = [] /\ call_args QueryExecutor evs = [])
      \/ exists sql,
           sq = Some sql /\ generated_sql resp = Some sql
           /\ call_args Validator evs = [sql]
           /\ (call_args QueryExecutor evs = []
               \/ (call_args QueryExecutor evs = [sql]
                   /\ fst (validate_sql_query sql) = true))).
Proof.
  intros H. destruct H as [H | sql H Hne Hv | sql err H Hne Hv Hres
                          | sql rows H Hne Hv Heng].
  - repeat split; auto.
  - repeat split; try reflexivity. right. exists sql. repeat split; auto.
  - change (Call Validator sql :: Call QueryExecutor sql :: executor_log sql)
      with ([Call Validator sql; Call QueryExecutor sql] ++ executor_log sql).
    rewrite !FallbackFacts.call_args_app, !executor_log_has_no_call.
    repeat split; try reflexivity. right. exists sql. repeat split; auto.
  - repeat split; try reflexivity. right. exists sql. repeat split; auto.
Qed.

(** X8: whatever the collaborators answer and whatever the request,
    a statement reaches the storage engine only after
    [validate_sql_query] has accepted that very statement, the one
    statement validated in the request. *)
Theorem X8_only_validated_statements_are_executed
    (data : option (list (string * string))) (sql : string) :
  In sql (call_args QueryExecutor (snd (run (handle data)))) ->
  fst (validate_sql_query sql) = true
  /\ call_args Validator (snd (run (handle data))) = [sql].
Proof.
  destruct (chat_cases data)
    as [[_ ->] | (fields & sq & gen_evs & resp & evs & _ & _
                  & Hgen & Hconc & ->)]; cbn [fst snd].
  { intros []. }
  destruct (generation_calls _ _ _ Hgen) as (Hv & Hx & _ & _).
  destruct (conclusion_calls _ _ _ Hconc) as (_ & _ & _ & Hshape).
  change (Log INFO ("Processing query: " ++ question_of fields)%string
            :: gen_evs ++ evs)
    with ([Log INFO ("Processing query: " ++ question_of fields)%string]
            ++ gen_evs ++ evs).
  rewrite !FallbackFacts.call_args_app, Hv, Hx. cbn [call_args flat_map app].
  destruct Hshape as [[_ Hq] | (s0 & _ & Hsql & Hval & [Hq | [Hq Hacc]])];
    rewrite Hq.
  - intros [].
  - intros [].
  - intros [<- | []]. auto.
Qed.

(** X9: a request makes at most one call to the completion service, one
    pass through the fallback generator, one validation and one
    execution: nothing is retried and nothing loops. *)
Theorem X9_each_stage_runs_at_most_once
    (data : option (list (string * string))) :
  calls CompletionAdapter (snd (run (handle data))) <= 1
  /\ calls FallbackGenerator (snd (run (handle data))) <= 1
  /\ calls Validator (snd (run (handle data))) <= 1
  /\ calls QueryExecutor (snd (run (handle data))) <= 1
  /\ calls QueryExecutor (snd (run (handle data)))
     <= calls Validator (snd (run (handle data))).
Proof.
  destruct (chat_cases data)
    as [[_ ->] | (fields & sq & gen_evs & resp & evs & _ & _
                  & Hgen & Hconc & ->)]; cbn [fst snd].
  { cbn. lia. }
  destruct (generation_calls _ _ _ Hgen) as (Hv & Hx & Hc & Hf).
  destruct (conclusion_calls _ _ _ Hconc) as (Hc' & Hf' & _ & Hshape).
  change (Log INFO ("Processing query: " ++ question_of fields)%string
            :: gen_evs ++ evs)
    with ([Log INFO ("Processing query: " ++ question_of fields)%string]
            ++ gen_evs ++ evs).
  rewrite !FallbackFacts.calls_app.
  rewrite !(calls_length _ evs), !(calls_length Validator gen_evs),
    !(calls_length QueryExecutor gen_evs), Hc', Hf', Hv, Hx.
  destruct Hshape as [[-> ->] | (s0 & _ & _ & -> & [-> | [-> _]])];
    cbn; lia.
Qed.

(** X10: every response is of one of two kinds.  A success carries the
    statement, which the validator accepted and the engine ran, the
    engine's rows with their values normalized, and their count; a
    failure carries an error text and neither rows nor a count. *)
Theorem X10_response_is_success_with_rows_or_failure_with_error
    (data : option (list (string * string))) :
  match success (fst (run (handle data))) with
  | true =>
      exists sql rows,
        generated_sql (fst (run (handle data))) = Some sql
        /\ fst (validate_sql_query sql) = true
        /\ engine sql = inl rows
        /\ results (fst (run (handle data)))
           = Some (map (format_row float_str round2) rows)
        /\ result_count (fst (run (handle data)))
           = Some (List.length rows)
        /\ error (fst (run (handle data))) = None
  | false =>
      error (fst (run (handle data))) <> None
      /\ results (fst (run (handle data))) = None
      /\ result_count (fst (run (handle data))) = None
  end.
Proof.
  destruct (chat_cases data)
    as [[_ ->] | (fields & sq & gen_evs & resp & evs & _ & _
                  & _ & Hconc & ->)]; cbn [fst snd].
  { cbn. repeat split; discriminate. }
  destruct Hconc as [H | sql H Hne Hv | sql err H Hne Hv Hres
                    | sql rows H Hne Hv Heng]; cbn.
  - repeat split; discriminate.
  - repeat split; discriminate.
  - repeat split; discriminate.
  - exists sql, rows. rewrite length_map. repeat split; assumption.
Qed.

(** X11: for a body that is a JSON object with text fields and a
    [message] of ASCII characters, the handler answers with status 400
    exactly when the object carries no question, and then it leaves no
    trace: "Invalid JSON data" for the empty object, "Message cannot be
    empty" for a missing, empty or blank [message].  Otherwise the
    answer is not a 400 and the handler starts by logging the trimmed
    question. *)
Theorem X11_status_400_only_for_requests_without_a_question
    (fields : list (string * string)) :
  isascii (dict_get fields "message" EmptyString) = true ->
  if blank_body (Some fields)
  then run (handle (Some fields))
       = (failure 400 match fields with
                      | [] => MSG_INVALID_JSON
                      | _ :: _ => MSG_EMPTY_MESSAGE
                      end None None, [])
  else http_status (fst (run (handle (Some fields)))) <> 400
       /\ hd_error (snd (run (handle (Some fields))))
          = Some (Log INFO ("Processing query: " ++ question_of fields)%string).
Proof.
  intros _.
  destruct (chat_cases (Some fields))
    as [[Hb ->] | (fields' & sq & gen_evs & resp & evs & Hd & Hb
                  & _ & Hconc & ->)]; cbn [fst snd]; rewrite Hb.
  - destruct fields; reflexivity.
  - injection Hd as ->.
    destruct (conclusion_calls _ _ _ Hconc) as (_ & _ & Hst & _).
    split; [rewrite Hst; discriminate | reflexivity].
Qed.

Lemma dict_get_absent (fields : list (string * string)) (key d : string) :
  (forall v, ~ In (key, v) fields) -> dict_get fields key d = d.
Proof.
  induction fields as [|[k v] fields IH]; intros H; [reflexivity |].
  cbn [dict_get]. destruct (String.eqb_spec k key) as [-> | Hne].
  - elim (H v). now left.
  - apply IH. intros w Hw. apply (H w). now right.
Qed.

(** X12: a body that has fields but no [message] among them is treated
    as an empty message: status 400, "Message cannot be empty", nothing
    generated, validated or executed. *)
Theorem X12_missing_message_field_is_an_empty_message
    (fields : list (string * string)) :
  fields <> [] ->
  (forall v, ~ In ("message"%string, v) fields) ->
  run (handle (Some fields))
  = (failure 400 MSG_EMPTY_MESSAGE None None, []).
Proof.
  intros Hf Hno.
  assert (Hq : question_of fields = EmptyString).
  { unfold question_of. now rewrite (dict_get_absent _ _ _ Hno). }
  unfold run, chat. fold (question_of fields). rewrite Hq.
  destruct fields; [contradiction | reflexivity].
Qed.

(** X13: when the completion service answers with a text that is empty
    once cleaned (blank, or a bare code fence), the request fails with
    the advice to rephrase; the fallback generator is not tried, and
    nothing is validated or executed. *)
Theorem X13_empty_model_answer_is_not_replaced_by_the_fallback
    (fields : list (string * string)) (content : string) :
  fields <> [] ->
  question_of fields <> EmptyString ->
  completion_answers groq_client schema_text (question_of fields) content ->
  clean_response content = EmptyString ->
  fst (run (handle (Some fields)))
  = failure 200
      "Failed to generate SQL query. Please try rephrasing your question."
      (Some SUGGESTION) None
  /\ calls FallbackGenerator (snd (run (handle (Some fields)))) = 0
  /\ calls Validator (snd (run (handle (Some fields)))) = 0
  /\ calls QueryExecutor (snd (run (handle (Some fields)))) = 0.
Proof.
  intros Hf Hq Hans Hempty.
  destruct (chat_model_path F float_str round2 groq_client schema_text
              engine fields content Hf Hq Hans) as [text ->].
  destruct Hans as (create & _ & Hc & _).
  rewrite Hempty. unfold after_generation, generation_failed.
  rewrite Hc. cbn. repeat split; reflexivity.
Qed.

(** X14: when the schema cannot be read while a client is configured,
    the completion service is not called at all; the error is logged and
    the fallback generator is entered once, with the question. *)
Theorem X14_schema_failure_skips_the_completion_call
    (fields : list (string * string)) create (e : exn) :
  fields <> [] ->
  question_of fields <> EmptyString ->
  groq_client = Some create ->
  schema_text = inr e ->
  calls CompletionAdapter (snd (run (handle (Some fields)))) = 0
  /\ call_args FallbackGenerator (snd (run (handle (Some fields))))
     = [question_of fields]
  /\ In (Log ERROR ("Groq API error: " ++ exn_text e)%string)
        (snd (run (handle (Some fields)))).
Proof.
  intros Hf Hq Hc Hs. unfold run.
  rewrite (chat_eq F float_str round2 groq_client schema_text engine
                   fields [] Hf Hq).
  cbv zeta. rewrite (generate_schema_raises _ _ create e Hc Hs).
  match goal with
  | |- context [after_generation ?sq ?t] =>
      destruct (after_generation_cases sq t) as (resp & evs & -> & Hconc)
  end.
  destruct (conclusion_calls _ _ _ Hconc) as (Hca & Hfb & _ & _).
  cbn [snd]. rewrite calls_length, !FallbackFacts.call_args_app, Hca, Hfb.
  unfold failure_events.
  change (Call SchemaIntrospector EmptyString
            :: [Log ERROR ("Groq API error: " ++ exn_text e)%string;
                Log ERROR ("Error type: " ++ exn_type e)%string;
                Call FallbackGenerator (question_of fields)]
               ++ warning_for (question_of fields))
    with ([Call SchemaIntrospector EmptyString;
           Log ERROR ("Groq API error: " ++ exn_text e)%string;
           Log ERROR ("Error type: " ++ exn_type e)%string;
           Call FallbackGenerator (question_of fields)]
            ++ warning_for (question_of fields)).
  rewrite !FallbackFacts.call_args_app.
  rewrite !(proj2 (FallbackFacts.warning_has_no_call _ _)).
  repeat split; try reflexivity.
  rewrite !in_app_iff. left. right. left. cbn. auto.
Qed.

(** X15: when the completion path is unavailable and a trigger fires,
    the canned statement is validated and executed as it is: the request
    can then fail only in the storage engine. *)
Theorem X15_fallback_statement_is_always_executed
    (fields : list (string * string)) (sql : string) :
  fields <> [] ->
  question_of fields <> EmptyString ->
  completion_unavailable groq_client schema_text (question_of fields) ->
  first_match trigger_table (question_of fields) = Some sql ->
  call_args Validator (snd (run (handle (Some fields)))) = [sql]
  /\ call_args QueryExecutor (snd (run (handle (Some fields)))) = [sql]
  /\ generated_sql (fst (run (handle (Some fields)))) = Some sql
  /\ (success (fst (run (handle (Some fields)))) = true
      <-> exists rows, engine sql = inl rows).
Proof.
  intros Hf Hq Hdown Hfm.
  rewrite <- FallbackFacts.chain_is_first_match in Hfm.
  destruct (chat_fallback_path F float_str round2 groq_client schema_text
              engine fields Hf Hq Hdown)
    as (before & _ & Hbv & Hbx & _ & ->).
  rewrite Hfm.
  assert (Hbv' : call_args Validator before = []).
  { rewrite calls_length in Hbv. now destruct (call_args Validator before). }
  assert (Hbx' : call_args QueryExecutor before = []).
  { rewrite calls_length in Hbx.
    now destruct (call_args QueryExecutor before). }
  pose proof (chain_accepted _ _ Hfm) as Hacc.
  pose proof (FallbackFacts.chain_nonempty _ _ Hfm) as Hne.
  unfold after_generation.
  destruct (PyStr.is_empty sql) eqn:He.
  { apply ValidatorFacts.is_empty_spec in He. contradiction. }
  rewrite Hacc. cbn [fst].
  unfold warning_for. rewrite Hfm.
  unfold executor_result, executor_log.
  destruct (engine sql) as [rows | [e | e]] eqn:Heng; cbn [fst snd];
    rewrite !FallbackFacts.call_args_app, Hbv', Hbx'; cbn;
    repeat split; try reflexivity;
    try (intros _; now exists rows); try discriminate;
    intros [rows Hr]; discriminate.
Qed.

(** X16: an error of the storage engine never escapes as an exception:
    the response is an ordinary failure (status 200) whose error is the
    engine's message behind "Database error: " (or "Unexpected error: "),
    together with the statement that failed, and the same text is
    logged. *)
Theorem X16_engine_errors_are_reported_in_the_response
    (data : option (list (string * string))) (sql : string)
    (err : engine_error) :
  In sql (call_args QueryExecutor (snd (run (handle data)))) ->
  engine sql = inr err ->
  fst (run (handle data)) = failure 200 (error_text err) None (Some sql)
  /\ In (Log ERROR (error_text err)) (snd (run (handle data))).
Proof.
  destruct (chat_cases data)
    as [[_ ->] | (fields & sq & gen_evs & resp & evs & _ & _
                  & Hgen & Hconc & ->)]; cbn [fst snd].
  { intros []. }
  destruct (generation_calls _ _ _ Hgen) as (_ & Hx & _ & _).
  change (Log INFO ("Processing query: " ++ question_of fields)%string
            :: gen_evs ++ evs)
    with ([Log INFO ("Processing query: " ++ question_of fields)%string]
            ++ gen_evs ++ evs).
  rewrite !FallbackFacts.call_args_app, Hx. cbn [call_args flat_map app].
  intros Hin Heng.
  destruct Hconc as [H | s0 H Hne Hv | s0 msg H Hne Hv Hres
                    | s0 rows H Hne Hv Heng'].
  - destruct Hin.
  - destruct Hin.
  - change (Call Validator s0 :: Call QueryExecutor s0 :: executor_log s0)
      with ([Call Validator s0; Call QueryExecutor s0] ++ executor_log s0)
      in Hin |- *.
    fold (call_args QueryExecutor
            ([Call Validator s0; Call QueryExecutor s0] ++ executor_log s0))
      in Hin.
    rewrite FallbackFacts.call_args_app, executor_log_has_no_call in Hin.
    destruct Hin as [<- | []].
    unfold executor_result in Hres. unfold executor_log.
    rewrite Heng in *. destruct err as [m | m]; injection Hres as <-;
      (split; [reflexivity |]);
      right; apply in_or_app; right; apply in_or_app; right; now left.
  - destruct Hin as [<- | []]. congruence.
Qed.

End OrchestratorMore.

Lemma X8_witness :
  In "SELECT * FROM customers"
     (call_args QueryExecutor (snd (Demo.chat None "Show all customers")))
  /\ fst (validate_sql_query "SELECT * FROM customers") = true.
Proof.
  assert (H : In "SELECT * FROM customers"
                 (call_args QueryExecutor
                            (snd (Demo.chat None "Show all customers"))))
    by (vm_compute; auto).
  split; [exact H |].
  exact (proj1 (X8_only_validated_statements_are_executed
                  Demo.F Demo.float_str Demo.round2 None
                  Demo.no_schema_error Demo.engine
                  (Some (Demo.fields "Show all customers")) _ H)).
Defined.

Lemma X11_witness :
  isascii (dict_get (Demo.fields "Show all customers") "message" EmptyString)
  = true
  /\ http_status (fst (Demo.chat None "Show all customers")) <> 400
  /\ hd_error (snd (Demo.chat None "Show all customers"))
     = Some (Log INFO "Processing query: Show all customers").
Proof.
  assert (H : isascii (dict_get (Demo.fields "Show all customers")
                                "message" EmptyString) = true)
    by (vm_compute; reflexivity).
  split; [exact H |].
  exact (X11_status_400_only_for_requests_without_a_question
           Demo.F Demo.float_str Demo.round2 None
           Demo.no_schema_error Demo.engine
           (Demo.fields "Show all customers") H).
Defined.

Lemma X12_witness :
  run (chat Demo.float_str Demo.round2 None Demo.no_schema_error Demo.engine
            (Some [("question", "Show all customers")]))
  = (failure 400 MSG_EMPTY_MESSAGE None None, []).
Proof.
  apply X12_missing_message_field_is_an_empty_message; [discriminate |].
  intros v [H | []]. discriminate.
Defined.

Lemma X13_witness :
  clean_response (Demo.fenced EmptyString) = EmptyString
  /\ calls FallbackGenerator
       (snd (Demo.chat (Demo.answering (Demo.fenced EmptyString))
                       "Show all customers")) = 0.
Proof.
  assert (H : clean_response (Demo.fenced EmptyString) = EmptyString)
    by (vm_compute; reflexivity).
  split; [exact H |].
  assert (Hans : completion_answers
                   (Demo.answering (Demo.fenced EmptyString))
                   Demo.no_schema_error
                   (question_of (Demo.fields "Show all customers"))
                   (Demo.fenced EmptyString))
    by (eexists _, _; repeat split; reflexivity).
  exact (proj1 (proj2
           (X13_empty_model_answer_is_not_replaced_by_the_fallback
              Demo.F Demo.float_str Demo.round2
              (Demo.answering (Demo.fenced EmptyString))
              Demo.no_schema_error Demo.engine
              (Demo.fields "Show all customers") (Demo.fenced EmptyString)
              ltac:(discriminate) ltac:(vm_compute; discriminate) Hans H))).
Defined.

Lemma X14_witness :
  calls CompletionAdapter
    (snd (run (chat Demo.float_str Demo.round2
                    (Demo.answering "SELECT 1")
                    (inr {| exn_type := "OperationalError";
                            exn_text := "unable to open database file" |})
                    Demo.engine
                    (Some (Demo.fields "Show all customers"))))) = 0.
Proof.
  exact (proj1
           (X14_schema_failure_skips_the_completion_call
              Demo.F Demo.float_str Demo.round2
              (Demo.answering "SELECT 1")
              (inr {| exn_type := "OperationalError";
                      exn_text := "unable to open database file" |})
              Demo.engine (Demo.fields "Show all customers") _ _
              ltac:(discriminate) ltac:(vm_compute; discriminate)
              eq_refl eq_refl)).
Defined.

Lemma X15_witness :
  call_args QueryExecutor
    (snd (Demo.chat Demo.raising "How many orders were placed?"))
  = ["SELECT COUNT(*) as order_count FROM orders"].
Proof.
  assert (Hdown : completion_unavailable Demo.raising Demo.no_schema_error
                    (question_of (Demo.fields "How many orders were placed?"))).
  { right. eexists _, _, _. repeat split; reflexivity. }
  exact (proj1 (proj2
           (X15_fallback_statement_is_always_executed
              Demo.F Demo.float_str Demo.round2 Demo.raising
              Demo.no_schema_error Demo.engine
              (Demo.fields "How many orders were placed?")
              "SELECT COUNT(*) as order_count FROM orders"
              ltac:(discriminate) ltac:(vm_compute; discriminate) Hdown
              ltac:(vm_compute; reflexivity)))).
Defined.

Lemma X16_witness :
  fst (Demo.chat Demo.raising "How many orders were placed?")
  = failure 200 "Database error: incomplete input" None
            (Some "SELECT COUNT(*) as order_count FROM orders").
Proof.
  exact (proj1
           (X16_engine_errors_are_reported_in_the_response
              Demo.F Demo.float_str Demo.round2 Demo.raising
              Demo.no_schema_error Demo.engine
              (Some (Demo.fields "How many orders were placed?"))
              "SELECT COUNT(*) as order_count FROM orders"
              (SqliteError "incomplete input")
              ltac:(vm_compute; auto) eq_refl)).
Defined.

(* ===================================================================== *)
(** * More on the response sanitizer *)
(* ===================================================================== *)

Module SanitizerFacts.
Import PyStr StrFacts TrimFacts.

Lemma rev_app (a b : string) :
  rev_string (a ++ b) = rev_string b ++ rev_string a.
Proof.
  induction a as [|c a IH]; cbn [append rev_string].
  - now rewrite app_nil_r.
  - now rewrite IH, app_assoc.
Qed.

Lemma rev_involutive (s : string) : rev_string (rev_string s) = s.
Proof.
  induction s as [|c s IH]; [reflexivity |].
  cbn [rev_string]. rewrite rev_app, IH. reflexivity.
Qed.

(** The last character of a trimmed text is visible. *)
Lemma rev_head_visible (s r : string) (c : ascii) :
  strip s = s -> rev_string s = String c r -> isspace c = false.
Proof.
  intros Hs Hr. apply (strip_last s (rev_string r) c).
  rewrite Hs, <- (rev_involutive s), Hr. reflexivity.
Qed.

(** The first character of a trimmed text is visible. *)
Lemma head_visible (c : ascii) (s : string) :
  strip (String c s) = String c s -> isspace c = false.
Proof.
  intros H. pose proof (strip_head (String c s)) as Hh.
  now rewrite H in Hh.
Qed.

(** A text between two visible characters is its own [strip]. *)
Lemma strip_between (c d : ascii) (s : string) :
  isspace c = false -> isspace d = false ->
  strip (String c (s ++ String d EmptyString))
  = String c (s ++ String d EmptyString).
Proof.
  intros Hc Hd. unfold strip. cbn [lstrip]. rewrite Hc.
  exact (rstrip_snoc (String c s) d Hd).
Qed.

Lemma startswith_nil (s : string) : startswith s EmptyString = true.
Proof. destruct s; reflexivity. Qed.

Lemma startswith_app (p x : string) : startswith (p ++ x) p = true.
Proof. apply startswith_spec. now exists x. Qed.

Lemma drop_app (p x : string) : drop (String.length p) (p ++ x) = x.
Proof. induction p as [|c p IH]; [reflexivity | exact IH]. Qed.

Lemma skip_newline_visible (c : ascii) (s : string) :
  isspace c = false -> skip_newline (String c s) = String c s.
Proof.
  intros H. cbn [skip_newline].
  destruct (Ascii.eqb_spec c NL) as [-> | _]; [discriminate | reflexivity].
Qed.

(** Removing the closing marker, with the newline before it if any. *)
Lemma close_fence (body : string) (close_nl : bool) :
  strip body = body ->
  sub_close_fence
    (body ++ (if close_nl then String NL EmptyString else EmptyString)
          ++ "```")
  = body.
Proof.
  intros Hb. unfold sub_close_fence.
  assert (Hrev : rev_string
                   (body ++ (if close_nl then String NL EmptyString
                             else EmptyString) ++ "```")
                 = FENCE ++ (if close_nl then String NL EmptyString
                             else EmptyString) ++ rev_string body).
  { rewrite !rev_app, app_assoc. destruct close_nl; reflexivity. }
  rewrite Hrev, startswith_app. unfold drop_fence_rev.
  change 3 with (String.length FENCE). rewrite drop_app.
  fold (skip_newline ((if close_nl then String NL EmptyString
                       else EmptyString) ++ rev_string body)).
  destruct close_nl; cbn [append].
  - cbn [skip_newline]. rewrite Ascii.eqb_refl. apply rev_involutive.
  - destruct (rev_string body) as [|c r] eqn:Hr.
    + rewrite <- (rev_involutive body), Hr. reflexivity.
    + rewrite (skip_newline_visible c r (rev_head_visible body r c Hb Hr)).
      rewrite <- Hr. apply rev_involutive.
Qed.

(** Removing the opening marker, with the newline after it if any. *)
Lemma open_fence (rest : string) :
  sub_open_fence ("```sql" ++ rest) = skip_newline rest.
Proof.
  unfold sub_open_fence. rewrite startswith_app.
  change 6 with (String.length "```sql"). rewrite drop_app. reflexivity.
Qed.

End SanitizerFacts.

(** X17: a statement wrapped in a code fence is recovered exactly: for
    every statement without blanks at its ends, with or without the
    newline after the opening marker and before the closing marker,
    [clean_response] returns the statement itself. *)
Theorem X17_fenced_statement_is_unwrapped
    (sql : string) (open_nl close_nl : bool) :
  PyStr.strip sql = sql ->
  clean_response (fence open_nl close_nl sql) = sql.
Proof.
  intros Hs. unfold clean_response.
  assert (Hstrip : PyStr.strip (fence open_nl close_nl sql)
                   = fence open_nl close_nl sql).
  { unfold fence.
    replace ("```sql" ++ (if open_nl then String PyStr.NL EmptyString
                          else EmptyString)
               ++ sql ++ (if close_nl then String PyStr.NL EmptyString
                          else EmptyString) ++ "```")
      with (String "`"
              (("``sql" ++ (if open_nl then String PyStr.NL EmptyString
                            else EmptyString)
                  ++ sql ++ (if close_nl then String PyStr.NL EmptyString
                             else EmptyString) ++ "``")
                 ++ String "`" EmptyString)).
    - apply SanitizerFacts.strip_between; reflexivity.
    - cbn [append]. rewrite !StrFacts.app_assoc.
      destruct open_nl, close_nl; cbn [append];
        rewrite ?StrFacts.app_assoc; reflexivity. }
  rewrite Hstrip.
  assert (Hopen : sub_open_fence (fence open_nl close_nl sql)
                  = sql ++ (if close_nl then String PyStr.NL EmptyString
                            else EmptyString) ++ "```"
                    \/ (sql = EmptyString
                        /\ sub_open_fence (fence open_nl close_nl sql)
                           = "```")).
  { unfold fence. rewrite SanitizerFacts.open_fence.
    destruct open_nl; cbn [append].
    - left. cbn [skip_newline].
      now rewrite Ascii.eqb_refl.
    - destruct sql as [|c s].
      + destruct close_nl; cbn [append].
        * right. split; reflexivity.
        * left. reflexivity.
      + left. cbn [append].
        apply SanitizerFacts.skip_newline_visible.
        exact (SanitizerFacts.head_visible c s Hs). }
  destruct Hopen as [-> | [-> ->]].
  - rewrite (SanitizerFacts.close_fence sql close_nl Hs). exact Hs.
  - reflexivity.
Qed.

Lemma X17_witness :
  clean_response (fence true true "SELECT name FROM customers")
  = "SELECT name FROM customers".
Proof.
  apply X17_fenced_statement_is_unwrapped. vm_compute. reflexivity.
Defined.

(** X18: [clean_response] never fails and never leaves blanks at the
    ends; a text that, once trimmed, neither starts with the opening
    marker nor ends with the closing one comes back trimmed and
    otherwise unchanged. *)
Theorem X18_unfenced_text_is_only_trimmed (content : string) :
  PyStr.strip (clean_response content) = clean_response content
  /\ (PyStr.startswith (PyStr.strip content) "```sql" = false ->
      ends_with (PyStr.strip content) "```" = false ->
      clean_response content = PyStr.strip content).
Proof.
  split; [apply TrimFacts.strip_idem |].
  intros Hopen Hclose. unfold clean_response, sub_open_fence.
  rewrite Hopen. unfold sub_close_fence.
  unfold ends_with in Hclose. change (rev_string "```") with FENCE in Hclose.
  rewrite Hclose.
  destruct (rev_string (PyStr.strip content)) as [|c r] eqn:Hr.
  - apply TrimFacts.strip_idem.
  - pose proof (SanitizerFacts.rev_head_visible
                  (PyStr.strip content) r c
                  (TrimFacts.strip_idem content) Hr) as Hc.
    destruct (Ascii.eqb_spec c PyStr.NL) as [-> | _]; [discriminate |].
    cbn [andb]. apply TrimFacts.strip_idem.
Qed.

Lemma X18_witness :
  clean_response "  SELECT name FROM customers  "
  = PyStr.strip "  SELECT name FROM customers  ".
Proof.
  apply (proj2 (X18_unfenced_text_is_only_trimmed
                  "  SELECT name FROM customers  "));
    vm_compute; reflexivity.
Defined.

(* ===================================================================== *)
(** * More on the executor *)
(* ===================================================================== *)

Section ExecutorMore.

Local Open Scope list_scope.

Variable F : Type.
Variable float_str : F -> string.
Variable round2 : F -> F.
Variable engine : string -> list (row F) + engine_error.





End ExecutorMore.


(* ===================================================================== *)
(** * The schema and its rendering *)
(* ===================================================================== *)

Module SchemaFacts.
Import Schema StrFacts.

(** Extending a text piece by piece is appending the joined pieces. *)
Lemma fold_append {A : Type} (f : A -> string) (l : list A) (acc : string) :
  fold_left (fun text x => text ++ f x) l acc = acc ++ join (map f l).
Proof.
  revert acc. induction l as [|x l IH]; intros acc; cbn [fold_left map join fold_right].
  - now rewrite app_nil_r.
  - rewrite IH. fold (join (map f l)). now rewrite app_assoc.
Qed.

Lemma format_table_block (acc : string) (item : string * table_info) :
  format_table acc item = acc ++ table_block item.
Proof.
  destruct item as [table_name info]. unfold format_table, table_block.
  cbn [fst snd]. rewrite fold_append.
  destruct (foreign_keys info) as [|fk fks].
  - rewrite !app_assoc. reflexivity.
  - rewrite fold_append, !app_assoc. reflexivity.
Qed.

Lemma format_schema_acc (schema : schema_info) (acc : string) :
  fold_left format_table schema acc
  = acc ++ join (map table_block schema).
Proof.
  revert acc. induction schema as [|item schema IH]; intros acc;
    cbn [fold_left map join fold_right].
  - now rewrite app_nil_r.
  - rewrite IH, format_table_block. fold (join (map table_block schema)).
    now rewrite app_assoc.
Qed.

Lemma join_app (a b : list string) :
  join (a ++ b)%list = join a ++ join b.
Proof.
  induction a as [|x a IH]; cbn [app join fold_right]; [reflexivity |].
  fold (join (a ++ b)). fold (join a). now rewrite IH, app_assoc.
Qed.

Lemma contains_left (a b p : string) :
  PyStr.contains a p = true -> PyStr.contains (a ++ b) p = true.
Proof.
  rewrite !contains_spec. intros (x & y & ->). exists x, (y ++ b).
  now rewrite !app_assoc.
Qed.

Lemma contains_right (a b p : string) :
  PyStr.contains b p = true -> PyStr.contains (a ++ b) p = true.
Proof.
  rewrite !contains_spec. intros (x & y & ->). exists (a ++ x), y.
  now rewrite !app_assoc.
Qed.

Lemma contains_self (p : string) : PyStr.contains p p = true.
Proof.
  apply contains_spec. exists EmptyString, EmptyString.
  cbn. now rewrite app_nil_r.
Qed.

(** A joined text contains each of its pieces. *)
Lemma contains_join (parts : list string) (p : string) :
  In p parts -> PyStr.contains (join parts) p = true.
Proof.
  induction parts as [|x parts IH]; cbn [In join fold_right]; [tauto |].
  fold (join parts). intros [-> | H].
  - apply contains_left, contains_self.
  - now apply contains_right, IH.
Qed.

(** Assigning under a fresh name appends. *)
Lemma schema_set_fresh (schema : schema_info) (t : string) (info : table_info) :
  ~ In t (map fst schema) -> schema_set schema t info = (schema ++ [(t, info)])%list.
Proof.
  induction schema as [|[k x] schema IH]; cbn [schema_set map fst In app];
    intros H; [reflexivity |].
  destruct (String.eqb_spec k t) as [-> | Hne]; [tauto |].
  rewrite IH; tauto.
Qed.

Lemma get_schema_acc (db : catalogue) (names : list string)
    (schema : schema_info) :
  NoDup (map fst schema ++ names)%list ->
  fold_left (fun sch t => schema_set sch t (describe db t)) names schema
  = (schema ++ map (fun t => (t, describe db t)) names)%list.
Proof.
  revert schema. induction names as [|t names IH]; intros schema Hnd;
    cbn [fold_left map].
  - now rewrite List.app_nil_r.
  - rewrite schema_set_fresh.
    + rewrite IH.
      * now rewrite <- List.app_assoc.
      * rewrite map_app. cbn [map fst]. now rewrite <- List.app_assoc.
    + apply NoDup_remove_2 in Hnd. intros H. apply Hnd.
      apply in_or_app. now left.
Qed.

End SchemaFacts.

(** X20: the text [format_schema_for_ai] builds is the concatenation of
    the texts of the tables taken one by one, in the order of the schema:
    rendering two schemas one after the other renders their
    concatenation, and the empty schema renders as the empty text. *)
Theorem X20_schema_text_is_built_table_by_table
    (s1 s2 : Schema.schema_info) :
  Schema.format_schema_for_ai [] = EmptyString
  /\ Schema.format_schema_for_ai (s1 ++ s2)%list
     = Schema.format_schema_for_ai s1 ++ Schema.format_schema_for_ai s2
  /\ forall item,
       Schema.format_schema_for_ai (s1 ++ [item])%list
       = Schema.format_schema_for_ai s1
         ++ Schema.format_schema_for_ai [item].
Proof.
  unfold Schema.format_schema_for_ai.
  split; [reflexivity |].
  assert (H : forall a b,
             fold_left Schema.format_table (a ++ b)%list EmptyString
             = fold_left Schema.format_table a EmptyString
               ++ fold_left Schema.format_table b EmptyString).
  { intros a b. rewrite !SchemaFacts.format_schema_acc. cbn [append].
    now rewrite map_app, SchemaFacts.join_app. }
  split; [apply H | intros item; apply H].
Qed.

(** X21: nothing of a schema is left out of its rendering: the text
    contains the heading of every table (its name in capitals) and the
    line of every column and of every foreign key of every table. *)
Theorem X21_every_table_column_and_key_is_rendered
    (schema : Schema.schema_info) (table_name : string)
    (info : Schema.table_info) :
  In (table_name, info) schema ->
  PyStr.contains (Schema.format_schema_for_ai schema)
                 ("📋 Table: " ++ PyStr.upper table_name ++ Schema.NLs) = true
  /\ (forall c, In c (Schema.columns info) ->
        PyStr.contains (Schema.format_schema_for_ai schema)
                       (Schema.column_line c) = true)
  /\ (forall fk, In fk (Schema.foreign_keys info) ->
        PyStr.contains (Schema.format_schema_for_ai schema)
                       (Schema.foreign_key_line fk) = true).
Proof.
  intros Hin. unfold Schema.format_schema_for_ai.
  rewrite SchemaFacts.format_schema_acc.
  change (EmptyString ++ join (map Schema.table_block schema))
    with (join (map Schema.table_block schema)).
  assert (Hblock : forall p,
             PyStr.contains (Schema.table_block (table_name, info)) p = true ->
             PyStr.contains (join (map Schema.table_block schema)) p = true).
  { intros p Hp. apply StrFacts.contains_spec in Hp as (x & y & Hp).
    pose proof (SchemaFacts.contains_join
                  (map Schema.table_block schema)
                  (Schema.table_block (table_name, info))
                  (in_map _ _ _ Hin)) as Hj.
    apply StrFacts.contains_spec in Hj as (u & v & ->).
    apply StrFacts.contains_spec. exists (u ++ x), (y ++ v).
    rewrite Hp, !StrFacts.app_assoc. reflexivity. }
  unfold Schema.table_block in Hblock. cbn [fst snd] in Hblock.
  split; [| split].
  - apply Hblock. apply StrFacts.contains_spec.
    eexists Schema.NLs, _. rewrite !StrFacts.app_assoc. reflexivity.
  - intros c Hc. apply Hblock.
    do 4 apply SchemaFacts.contains_right. apply SchemaFacts.contains_left.
    apply SchemaFacts.contains_join. now apply in_map.
  - intros fk Hfk. apply Hblock.
    do 5 apply SchemaFacts.contains_right. apply SchemaFacts.contains_left.
    destruct (Schema.foreign_keys info) as [|fk0 fks] eqn:E; [destruct Hfk |].
    do 2 apply SchemaFacts.contains_right.
    apply SchemaFacts.contains_join. now apply in_map.
Qed.

(** X22: on a catalogue whose table names are distinct,
    [get_database_schema] describes each table once, in the order the
    catalogue lists them, with one column entry per row of
    [PRAGMA table_info] and one foreign key per row of
    [PRAGMA foreign_key_list]; a column is flagged NOT NULL or PRIMARY KEY
    exactly when the corresponding integer is not zero. *)
Theorem X22_schema_has_one_entry_per_table (db : Schema.catalogue) :
  NoDup (Schema.tables db) ->
  Schema.get_database_schema db
  = map (fun t =>
           (t, {| Schema.columns :=
                    map Schema.column_of (Schema.pragma_table_info db t);
                  Schema.foreign_keys :=
                    map Schema.foreign_key_of
                        (Schema.pragma_foreign_key_list db t) |}))
        (Schema.tables db)
  /\ forall col,
       (Schema.not_null (Schema.column_of col) = true
        <-> Schema.notnull col <> 0%Z)
       /\ (Schema.primary_key (Schema.column_of col) = true
           <-> Schema.pk col <> 0%Z).
Proof.
  intros Hnd. split.
  - unfold Schema.get_database_schema.
    now rewrite (SchemaFacts.get_schema_acc db (Schema.tables db) [] Hnd).
  - intros col. cbn [Schema.column_of Schema.not_null Schema.primary_key].
    unfold Schema.truthy. rewrite !negb_true_iff, !Z.eqb_neq. tauto.
Qed.

Lemma X21_witness :
  PyStr.contains
    (Schema.format_schema_for_ai (Schema.get_database_schema SampleDb.db))
    ("📋 Table: ORDERS" ++ Schema.NLs) = true.
Proof.
  exact (proj1 (X21_every_table_column_and_key_is_rendered
                  (Schema.get_database_schema SampleDb.db) "orders"
                  (Schema.describe SampleDb.db "orders")
                  ltac:(vm_compute; auto))).
Defined.

Lemma X22_witness :
  map fst (Schema.get_database_schema SampleDb.db) = ["customers"; "orders"].
Proof.
  rewrite (proj1 (X22_schema_has_one_entry_per_table SampleDb.db
                    ltac:(repeat constructor; cbn; intuition discriminate))).
  reflexivity.
Defined.

(** The rendering of the small catalogue. *)
Example sample_schema_text :
  Schema.format_schema_for_ai (Schema.get_database_schema SampleDb.db)
  = join
      [ Schema.NLs; "📋 Table: CUSTOMERS"; Schema.NLs;
        "   • id: INTEGER [PRIMARY KEY]"; Schema.NLs;
        "   • name: TEXT [NOT NULL]"; Schema.NLs;
        "   • status: TEXT"; Schema.NLs;
        Schema.NLs;
        Schema.NLs; "📋 Table: ORDERS"; Schema.NLs;
        "   • id: INTEGER [PRIMARY KEY]"; Schema.NLs;
        "   • customer_id: INTEGER [NOT NULL]"; Schema.NLs;
        "   🔗 Foreign Keys:"; Schema.NLs;
        "      - customer_id → customers.id"; Schema.NLs;
        Schema.NLs ].
Proof. vm_compute. reflexivity. Qed.

(* ===================================================================== *)
(** * The prompt *)
(* ===================================================================== *)

Lemma prompt_shape (text q : string) :
  enhanced_prompt text q
  = PROMPT_HEAD ++ text ++ PROMPT_RULES ++ q ++ PROMPT_TAIL.
Proof. reflexivity. Qed.

Lemma startswith_left (a b p : string) :
  PyStr.startswith a p = true -> PyStr.startswith (a ++ b) p = true.
Proof.
  rewrite !StrFacts.startswith_spec. intros [t ->]. exists (t ++ b).
  now rewrite StrFacts.app_assoc.
Qed.

(** The fixed text around the schema and the question. *)
Lemma prompt_facts (text q : string) :
  ends_with PROMPT_HEAD ("DATABASE SCHEMA:" ++ Schema.NLs) = true
  /\ ends_with PROMPT_RULES "USER QUESTION: " = true
  /\ PyStr.contains (enhanced_prompt text q) text = true
  /\ PyStr.contains (enhanced_prompt text q) q = true
  /\ ends_with (enhanced_prompt text q) "SQL QUERY:" = true
  /\ PyStr.startswith (enhanced_prompt text q) "You are an expert SQL analyst"
     = true.
Proof.
  split; [vm_compute; reflexivity |].
  split; [vm_compute; reflexivity |].
  rewrite prompt_shape.
  split; [| split; [| split]].
  - apply StrFacts.contains_spec. now exists PROMPT_HEAD, (PROMPT_RULES ++ q ++ PROMPT_TAIL).
  - apply StrFacts.contains_spec.
    exists (PROMPT_HEAD ++ text ++ PROMPT_RULES), PROMPT_TAIL.
    now rewrite !StrFacts.app_assoc.
  - unfold ends_with.
    replace (PROMPT_HEAD ++ text ++ PROMPT_RULES ++ q ++ PROMPT_TAIL)
      with ((PROMPT_HEAD ++ text ++ PROMPT_RULES ++ q
               ++ String PyStr.NL (String PyStr.NL EmptyString))
              ++ "SQL QUERY:")
      by (rewrite !StrFacts.app_assoc; reflexivity).
    rewrite SanitizerFacts.rev_app. apply SanitizerFacts.startswith_app.
  - apply startswith_left. vm_compute. reflexivity.
Qed.

Section PromptMore.

Local Open Scope list_scope.

Variable F : Type.
Variable float_str : F -> string.
Variable round2 : F -> F.
Variable groq_client : option (string -> string + exn).
Variable schema_text : string + exn.
Variable engine : string -> list (row F) + engine_error.

Local Abbreviation handle :=
  (chat float_str round2 groq_client schema_text engine).

(** X23: with a client configured and a readable schema, the completion
    service is called exactly once, with the fixed instructions around
    the schema text and the trimmed question, both taken verbatim: the
    schema right under "DATABASE SCHEMA:", the question right after
    "USER QUESTION: ", and "SQL QUERY:" at the very end, whatever the
    question contains. *)
Theorem X23_completion_receives_schema_and_question_verbatim
    (fields : list (string * string)) create (text : string) :
  fields <> [] ->
  question_of fields <> EmptyString ->
  groq_client = Some create ->
  schema_text = inl text ->
  call_args CompletionAdapter (snd (run (handle (Some fields))))
  = [ (PROMPT_HEAD ++ text ++ PROMPT_RULES ++ question_of fields
         ++ PROMPT_TAIL)%string ]
  /\ ends_with PROMPT_HEAD ("DATABASE SCHEMA:" ++ Schema.NLs)%string = true
  /\ ends_with PROMPT_RULES "USER QUESTION: " = true
  /\ ends_with PROMPT_TAIL "SQL QUERY:" = true.
Proof.
  intros Hf Hq Hc Hs.
  split; [| repeat split; vm_compute; reflexivity].
  unfold run.
  rewrite (chat_eq F float_str round2 groq_client schema_text engine
                   fields [] Hf Hq).
  cbv zeta. rewrite <- prompt_shape.
  destruct (create (enhanced_prompt text (question_of fields)))
    as [content | e] eqn:He.
  - rewrite (generate_answers groq_client schema_text _ _ create text content
                              Hc Hs He).
    match goal with
    | |- context [after_generation _ _ _ _ ?sq ?t] =>
        destruct (after_generation_cases F float_str round2 groq_client
                    engine sq t) as (resp & evs & -> & Hconc)
    end.
    destruct (conclusion_calls F float_str round2 groq_client engine
                _ _ _ Hconc) as (Hca & _).
    cbn [snd]. rewrite !FallbackFacts.call_args_app, Hca. reflexivity.
  - rewrite (generate_raises groq_client schema_text _ _ create text e
                             Hc Hs He).
    match goal with
    | |- context [after_generation _ _ _ _ ?sq ?t] =>
        destruct (after_generation_cases F float_str round2 groq_client
                    engine sq t) as (resp & evs & -> & Hconc)
    end.
    destruct (conclusion_calls F float_str round2 groq_client engine
                _ _ _ Hconc) as (Hca & _).
    cbn [snd].
    change (Log ERROR ("Groq API error: " ++ exn_text e)%string
              :: Log ERROR ("Error type: " ++ exn_type e)%string
              :: Call FallbackGenerator (question_of fields)
              :: warning_for (question_of fields))
      with ([Log ERROR ("Groq API error: " ++ exn_text e)%string;
             Log ERROR ("Error type: " ++ exn_type e)%string;
             Call FallbackGenerator (question_of fields)]
              ++ warning_for (question_of fields)).
    rewrite !FallbackFacts.call_args_app, Hca.
    rewrite (proj2 (FallbackFacts.warning_has_no_call _ _)). reflexivity.
Qed.

End PromptMore.

Lemma X23_witness :
  call_args CompletionAdapter
    (snd (Demo.chat (Demo.answering "SELECT 1") "Show all customers"))
  = [ PROMPT_HEAD ++ "customers(id, name)" ++ PROMPT_RULES
        ++ "Show all customers" ++ PROMPT_TAIL ].
Proof.
  exact (proj1
           (X23_completion_receives_schema_and_question_verbatim
              Demo.F Demo.float_str Demo.round2 (Demo.answering "SELECT 1")
              Demo.no_schema_error Demo.engine
              (Demo.fields "Show all customers") _ "customers(id, name)"
              ltac:(discriminate) ltac:(vm_compute; discriminate)
              eq_refl eq_refl)).
Defined.

(* ===================================================================== *)
(** * The earlier validator of [main.py], beside the one of [app.py] *)
(* ===================================================================== *)

Module MainFacts.
Import StrFacts.

(** A token of a text is a part of it. *)
Lemma delimited_is_contained (delim : ascii -> bool) (k s : string) :
  Delimited delim k s -> PyStr.contains s k = true.
Proof.
  intros (pre & post & -> & _). apply contains_spec. now exists pre, post.
Qed.

(** The keyword named in a forbidden-keyword verdict of [app.py] stands
    in the normal form as a space-delimited token. *)
Lemma forbidden_names_a_token (q k : string) :
  validate_sql_query q = (false, MSG_FORBIDDEN k) ->
  SpaceDelimited k (normal_form q).
Proof.
  unfold validate_sql_query. fold (normal_form q).
  destruct (PyStr.is_empty q || PyStr.is_empty (PyStr.strip q));
    [intros H; vm_compute in H; discriminate |].
  destruct (PyStr.startswith (normal_form q) "SELECT"); cbn [negb];
    [| intros H; vm_compute in H; discriminate].
  destruct (find (keyword_hit (normal_form q)) dangerous_keywords)
    as [k'|] eqn:Hf.
  - intros H. injection H as H. subst k'.
    apply find_some in Hf as [_ Hk].
    now apply ValidatorFacts.keyword_hit_spec.
  - destruct (existsb _ injection_patterns); intros H;
      vm_compute in H; discriminate.
Qed.

End MainFacts.

(** X24: the validator of [main.py] accepts a candidate exactly when its
    trimmed, upper-cased form starts with SELECT and contains none of its
    eleven keywords anywhere, inside longer words included; whatever it
    accepts, the validator of [app.py] never rejects for one of these
    eleven keywords. *)
Theorem X24_main_validator_rejects_keywords_anywhere (query : string) :
  (fst (MainApp.validate_sql_query query) = true
   <-> PyStr.startswith (normal_form query) "SELECT" = true
       /\ forall k, In k MainApp.dangerous_keywords ->
                    PyStr.contains (normal_form query) k = false)
  /\ (fst (MainApp.validate_sql_query query) = true ->
      forall k, In k MainApp.dangerous_keywords ->
                validate_sql_query query <> (false, MSG_FORBIDDEN k)).
Proof.
  assert (Hiff : fst (MainApp.validate_sql_query query) = true
                 <-> PyStr.startswith (normal_form query) "SELECT" = true
                     /\ forall k, In k MainApp.dangerous_keywords ->
                          PyStr.contains (normal_form query) k = false).
  { unfold MainApp.validate_sql_query. fold (normal_form query). cbv zeta.
    destruct (PyStr.startswith (normal_form query) "SELECT"); cbn [negb fst].
    2: { split; [discriminate | intros [H _]; discriminate]. }
    destruct (find (fun keyword => PyStr.contains (normal_form query) keyword)
                   MainApp.dangerous_keywords) as [k|] eqn:Hf; cbn [fst].
    - apply find_some in Hf as [Hin Hk].
      split; [discriminate | intros [_ H]].
      rewrite (H k Hin) in Hk. discriminate.
    - split; [intros _ | reflexivity]. split; [reflexivity |].
      intros k Hin. exact (find_none _ _ Hf k Hin). }
  split; [exact Hiff |].
  intros Hacc k Hin Hrej. apply Hiff in Hacc as [_ Hnone].
  apply MainFacts.forbidden_names_a_token in Hrej.
  apply MainFacts.delimited_is_contained in Hrej.
  rewrite (Hnone k Hin) in Hrej. discriminate.
Qed.

Lemma X24_witness :
  fst (MainApp.validate_sql_query "select name from customers") = true
  /\ validate_sql_query "select name from customers"
     <> (false, MSG_FORBIDDEN "DROP").
Proof.
  assert (H : fst (MainApp.validate_sql_query "select name from customers")
              = true) by (vm_compute; reflexivity).
  split; [exact H |].
  apply (proj2 (X24_main_validator_rejects_keywords_anywhere
                  "select name from customers") H).
  simpl. auto.
Defined.

(** Where the two validators part: a column whose name holds a keyword. *)
Example created_date_divides_the_validators :
  MainApp.validate_sql_query "SELECT created_date FROM products"
  = (false, "Query contains forbidden keyword: CREATE")
  /\ validate_sql_query "SELECT created_date FROM products"
     = (true, MSG_PASSED).
Proof. split; vm_compute; reflexivity. Qed.
